(** * obsidian-yaml-editor: the front-matter pipeline of [main.py]

    A shallow embedding of the text pipeline of [src/main.py]
    ([find_yaml_block_indices], [extract_yaml_data], [update_yaml_field],
    [build_updated_content], [update_yaml_content], [process_file]) together
    with the properties its specification states about it.

    Python strings are sequences of Unicode code points; the object store
    and the log are threaded explicitly; PyYAML is an external library and
    enters as the two functions [safe_load] and [safe_dump] of a section,
    each of which may raise, and so may [print] and [is_file]. *)

From Stdlib Require Import String Ascii.
From stdpp Require Import base numbers option list.

Local Open Scope N_scope.

(** ** Python [str] *)

(** A code point. *)
Definition char := N.

(** A Python [str]. *)
Definition str := list char.

(** Source literals: the two characters backslash, [n] stand for U+000A, as
    they do in a Python literal; every other character is its own code. *)
Fixpoint py (s : string) : str :=
  match s with
  | EmptyString => []
  | String a r =>
      match r with
      | String b r' =>
          if (Ascii.eqb a "\" && Ascii.eqb b "n")%bool
          then 10 :: py r'
          else N_of_ascii a :: py r
      | EmptyString => [N_of_ascii a]
      end
  end.

(** [str.splitlines] boundaries (CPython [_PyUnicode_IsLinebreak]). *)
Definition is_linebreak (c : char) : bool :=
  (c =? 0x0A) || (c =? 0x0B) || (c =? 0x0C) || (c =? 0x0D) ||
  (c =? 0x1C) || (c =? 0x1D) || (c =? 0x1E) || (c =? 0x85) ||
  (c =? 0x2028) || (c =? 0x2029).

(** Characters removed by [str.strip()] (CPython [_PyUnicode_IsWhitespace]). *)
Definition is_space (c : char) : bool :=
  ((0x09 <=? c) && (c <=? 0x0D)) || ((0x1C <=? c) && (c <=? 0x20)) ||
  (c =? 0x85) || (c =? 0xA0) || (c =? 0x1680) ||
  ((0x2000 <=? c) && (c <=? 0x200A)) ||
  (c =? 0x2028) || (c =? 0x2029) || (c =? 0x202F) || (c =? 0x205F) ||
  (c =? 0x3000).

(** [content.splitlines()]: lines without their terminators; a carriage
    return followed by a line feed is one terminator; a terminator at the
    very end opens no further line. *)
Fixpoint splitlines (s : str) : list str :=
  match s with
  | [] => []
  | c :: rest =>
      if is_linebreak c then
        [] :: match rest with
              | c' :: rest' =>
                  if (c =? 0x0D) && (c' =? 0x0A) then splitlines rest'
                  else splitlines rest
              | [] => []
              end
      else
        match splitlines rest with
        | [] => [[c]]
        | l :: ls => (c :: l) :: ls
        end
  end.

(** [line.strip()]. *)
Fixpoint lstrip (s : str) : str :=
  match s with
  | [] => []
  | c :: rest => if is_space c then lstrip rest else s
  end.

Definition rstrip (s : str) : str := reverse (lstrip (reverse s)).

Definition strip (s : str) : str := rstrip (lstrip s).

(** ["\n".join(lines)]. *)
Fixpoint join (lines : list str) : str :=
  match lines with
  | [] => []
  | [l] => l
  | l :: ls => l ++ 10 :: join ls
  end.

(** The delimiter ["---"]. *)
Definition delimiter : str := py "---".

(** [line.strip() == "---"]. *)
Definition is_delimiter (line : str) : bool :=
  bool_decide (strip line = delimiter).

(** [lines[lo:hi]]. *)
Definition slice {A} (lo hi : nat) (l : list A) : list A :=
  take (hi - lo) (drop lo l).

(** ** Delimiter lines of a text *)

(** The number of lines of [content] whose trimmed content is ["---"]. *)
Definition delimiter_count (content : str) : nat :=
  length (List.filter is_delimiter (splitlines content)).

(** Line [i] of [lines] is a delimiter line. *)
Definition delimiter_at (lines : list str) (i : nat) : Prop :=
  ∃ line, lines !! i = Some line ∧ strip line = delimiter.

(** The last line of [content], if any, is not empty: the text does not end
    in a blank line. *)
Definition no_trailing_blank_line (content : str) : Prop :=
  last (splitlines content) ≠ Some [].

(** No line of [lines] is a delimiter line. *)
Definition no_delimiter (lines : list str) : Prop :=
  Forall (λ line, is_delimiter line = false) lines.

(** A line holds no terminator. *)
Definition plain (line : str) : Prop :=
  Forall (λ c, is_linebreak c = false) line.

Local Close Scope N_scope.

(** ** Python objects, the store and the log *)

(** The address of a mutable object. The store only grows (nothing in
    [main.py] deletes an object), so an address is a position in it. *)
Definition loc := nat.

(** Values as the program handles them: immutable scalars by value,
    containers by reference. *)
Inductive value :=
  | VNone
  | VBool (b : bool)
  | VInt (n : Z)
  | VStr (s : str)
  | VScalar (repr : str)   (* any other immutable scalar: float, date, bytes *)
  | VRef (l : loc).

(** Mutable objects. A [dict] keeps its entries in insertion order. *)
Inductive obj :=
  | ODict (entries : list (value * value))
  | OList (items : list value).

Definition heap := list obj.

(** The messages of the [logging] calls, by call site. *)
Inductive message :=
  | MsgParseError (e : str)   (* extract_yaml_data: f"... YAML: {e}" *)
  | MsgBlockNotFound          (* update_yaml_content: logging.error(e) *)
  | MsgNotADict               (* update_yaml_content: shape check *)
  | MsgReadError              (* process_file: read_text failed *)
  | MsgUpdated                (* process_file: file rewritten *)
  | MsgWriteError.            (* process_file: write_text failed *)

(** What reaches standard output: [print] and the [logging] calls. *)
Inductive event :=
  | Printed (o : obj)
  | LogError (m : message)
  | LogInfo (m : message).

Record state := State { st_heap : heap; st_out : list event }.

Definition emit (e : event) (st : state) : state :=
  State (st_heap st) (st_out st ++ [e]).

(** [isinstance(data, dict)]. *)
Definition is_dict (data : value) (h : heap) : bool :=
  match data with
  | VRef l => match h !! l with Some (ODict _) => true | _ => false end
  | _ => false
  end.

(** ** Exceptions *)

Inductive exn :=
  | YamlBlockNotFound         (* class YamlBlockNotFound(Exception) *)
  | LibraryError (e : str)    (* raised inside yaml.safe_load; [e] is str(e) *)
  | PrintFailed (e : str)     (* raised inside print *)
  | DumpFailed (e : str)      (* raised inside yaml.safe_dump *)
  | OutsideModel.             (* dict() of something that is no dict *)

Inductive result (A : Type) :=
  | Ok (a : A)
  | Raise (e : exn).
Arguments Ok {A} a.
Arguments Raise {A} e.

(** ** [find_yaml_block_indices] *)

(** [for idx, line in enumerate(lines): if line.strip() == "---": ...; break] *)
Fixpoint scan_enumerate (idx : nat) (lines : list str) : option nat :=
  match lines with
  | [] => None
  | line :: rest =>
      if is_delimiter line then Some idx else scan_enumerate (S idx) rest
  end.

(** [for idx in range(lo, hi): if lines[idx].strip() == "---": ...; break],
    [idxs] being the range. An index outside [lines] would raise; the
    range of the source stops at [len(lines)]. *)
Fixpoint scan_range (lines : list str) (idxs : list nat) : option nat :=
  match idxs with
  | [] => None
  | idx :: rest =>
      match lines !! idx with
      | Some line =>
          if is_delimiter line then Some idx else scan_range lines rest
      | None => None
      end
  end.

(** [range(lo, hi)]. *)
Definition range (lo hi : nat) : list nat := seq lo (hi - lo).

Definition find_yaml_block_indices (content : str)
  : option nat * option nat :=
  let lines := splitlines content in
  match scan_enumerate 0 lines with
  | None => (None, None)
  | Some start_index =>
      let end_index :=
        scan_range lines (range (start_index + 1) (length lines)) in
      (Some start_index, end_index)
  end.

(** ** [build_updated_content] *)

(** The list [new_content_lines] just before it is joined. *)
Definition new_content_lines
    (content : str) (start_index end_index : nat) (updated_yaml : str)
  : list str :=
  let lines := splitlines content in
  take start_index lines
    ++ [delimiter]
    ++ splitlines updated_yaml
    ++ [delimiter]
    ++ drop (end_index + 1) lines.

Definition build_updated_content
    (content : str) (start_index end_index : nat) (updated_yaml : str)
  : str :=
  join (new_content_lines content start_index end_index updated_yaml).

(** ** [re.match] and the file name pattern *)

(** What a pattern matches one character with: a literal, or [.], which
    without DOTALL is any character but U+000A. *)
Inductive atom :=
  | Lit (c : char)
  | Dot.

(** The pieces a pattern such as [FILE_NAME_PATTERN] is made of. *)
Inductive item :=
  | Caret             (* ^ : the start of the string *)
  | One (a : atom)
  | Star (a : atom)   (* a* *)
  | Dollar.           (* $ : the end, or just before a final U+000A *)

Definition atom_ok (a : atom) (c : char) : bool :=
  match a with
  | Lit c' => (c =? c')%N
  | Dot => negb (c =? 10)%N
  end.

(** [a*] followed by what [k] matches: zero or more characters are taken,
    whichever number lets the rest match. *)
Fixpoint star (ok : char → bool) (k : bool → str → bool)
    (at_start : bool) (s : str) : bool :=
  k at_start s
  || match s with
     | c :: s' => ok c && star ok k false s'
     | [] => false
     end.

(** The pattern matches a prefix of [s]; [at_start] tells whether [s] is
    the whole string. *)
Fixpoint match_here (items : list item) (at_start : bool) (s : str) : bool :=
  match items with
  | [] => true
  | Caret :: r => at_start && match_here r at_start s
  | One a :: r =>
      match s with
      | c :: s' => atom_ok a c && match_here r false s'
      | [] => false
      end
  | Star a :: r => star (atom_ok a) (match_here r) at_start s
  | Dollar :: r =>
      (bool_decide (s = []) || bool_decide (s = [10%N]))
      && match_here r at_start s
  end.

(** [re.match(pattern, s)] is not [None]. *)
Definition re_match (pattern : list item) (s : str) : bool :=
  match_here pattern true s.

(** The five Cyrillic letters the pattern starts with, U+041A U+043D U+0438
    U+0433 U+0430. *)
Definition book_prefix : str := [0x41A; 0x43D; 0x438; 0x433; 0x430]%N.

(** [FILE_NAME_PATTERN]: [^], the five letters, [.*], [\.md], [$]. *)
Definition FILE_NAME_PATTERN : list item :=
  [Caret] ++ map (λ c, One (Lit c)) book_prefix
    ++ [Star Dot; One (Lit 0x2E%N); One (Lit 0x6D%N); One (Lit 0x64%N);
        Dollar].

(** Every character of [s] is one [strip] removes. *)
Definition whitespace (s : str) : Prop :=
  Forall (λ c, is_space c = true) s.

(** ** The functions that call PyYAML or touch files *)

(** The outcome of [yaml.safe_load]. *)
Inductive loaded :=
  | Loaded (data : value)
  | LoadError (e : str).

(** The outcome of [yaml.safe_dump]. *)
Inductive dumped :=
  | Dumped (text : str)
  | DumpError (e : str).

(** What [update_yaml_content] does with the inner text of a block it has
    found: it writes new lines in its place, it returns the text as it is,
    or an exception leaves it. *)
Inductive block_outcome :=
  | Rewritten (block : list str)
  | LeftAlone
  | Failed (e : exn).

Section Pipeline.

(** [yaml.safe_load(text)]: raises, or returns a value whose containers
    it has allocated in the store. *)
Variable safe_load : str -> heap -> loaded * heap.

(** [yaml.safe_dump(data, allow_unicode=True, sort_keys=False)]: the text,
    or the exception raised (a [RecursionError] on deeply nested data, a
    [ValueError] on an integer beyond the digit limit of [str]). *)
Variable safe_dump : value -> heap -> dumped.

(** [print(updated_data)]: the exception it raises, if it raises one (a
    [ValueError] on an integer beyond the digit limit of [str], an error of
    the output stream); [None] when the line is printed. *)
Variable print_error : value -> heap -> option str.

(** *** [update_yaml_field] *)

(** [updated_data = dict(data); print(updated_data); return updated_data].
    [dict(data)] allocates a new dictionary holding the entries of [data],
    the values being the very same objects. The parameter is annotated
    [dict] and the only caller checks [isinstance(data, dict)] first:
    [dict()] of anything else is not modelled, [OutsideModel] marks it. *)
Definition update_yaml_field (data : value) (st : state)
  : result value * state :=
  match data with
  | VRef l =>
      match st_heap st !! l with
      | Some (ODict entries) =>
          let updated_data := VRef (length (st_heap st)) in
          let st1 := State (st_heap st ++ [ODict entries]) (st_out st) in
          match print_error updated_data (st_heap st1) with
          | Some e => (Raise (PrintFailed e), st1)
          | None => (Ok updated_data, emit (Printed (ODict entries)) st1)
          end
      | _ => (Raise OutsideModel, st)
      end
  | _ => (Raise OutsideModel, st)
  end.

(** *** [extract_yaml_data] *)

Definition extract_yaml_data (content : str) (st : state)
  : result (value * nat * nat) * state :=
  let lines := splitlines content in
  match find_yaml_block_indices content with
  | (Some start_index, Some end_index) =>
      let yaml_lines := slice (start_index + 1) end_index lines in
      let yaml_text := join yaml_lines in
      match safe_load yaml_text (st_heap st) with
      | (Loaded data, h) =>
          (Ok (data, start_index, end_index), State h (st_out st))
      | (LoadError e, h) =>
          (Raise (LibraryError e),
           emit (LogError (MsgParseError e)) (State h (st_out st)))
      end
  | _ => (Raise YamlBlockNotFound, st)
  end.

(** *** [update_yaml_content] *)

Definition update_yaml_content (content : str) (st : state)
  : result str * state :=
  match extract_yaml_data content st with
  | (Raise YamlBlockNotFound, st1) =>
      (Ok content, emit (LogError MsgBlockNotFound) st1)
  | (Raise _, st1) => (Ok content, st1)
  | (Ok (data, start_index, end_index), st1) =>
      if negb (is_dict data (st_heap st1)) then
        (Ok content, emit (LogError MsgNotADict) st1)
      else
        match update_yaml_field data st1 with
        | (Raise e, st2) => (Raise e, st2)
        | (Ok data', st2) =>
            match safe_dump data' (st_heap st2) with
            | DumpError e => (Raise (DumpFailed e), st2)
            | Dumped text =>
                let updated_yaml := strip text in
                (Ok (build_updated_content content start_index end_index
                       updated_yaml),
                 st2)
            end
        end
  end.

(** The exception comes from [print] or from [yaml.safe_dump], the two
    calls of [update_yaml_content] that no [try] surrounds. *)
Definition from_print_or_dump (e : exn) : Prop :=
  match e with
  | PrintFailed err => ∃ v h, print_error v h = Some err
  | DumpFailed err => ∃ v h, safe_dump v h = DumpError err
  | _ => False
  end.

(** *** [process_file] *)

(** The file system, as far as [process_file] uses it. *)
Variable path : Type.
Variable files : Type.

(** [file_path.read_text(encoding="utf-8")]; [None] when it raises. *)
Variable read_text : path -> files -> option str.

(** [file_path.write_text(text, encoding="utf-8")]: the files afterwards
    and whether the call returned ([false] when it raised). *)
Variable write_text : path -> str -> files -> files * bool.

Definition process_file (file_path : path) (fs : files) (st : state)
  : result unit * files * state :=
  match read_text file_path fs with
  | None => (Ok tt, fs, emit (LogError MsgReadError) st)
  | Some content =>
      match update_yaml_content content st with
      | (Raise e, st1) => (Raise e, fs, st1)
      | (Ok updated_content, st1) =>
          if bool_decide (updated_content ≠ content) then
            match write_text file_path updated_content fs with
            | (fs', true) => (Ok tt, fs', emit (LogInfo MsgUpdated) st1)
            | (fs', false) => (Ok tt, fs', emit (LogError MsgWriteError) st1)
            end
          else (Ok tt, fs, st1)
      end
  end.

(** *** The transformation applied twice *)

(** [update_yaml_content(update_yaml_content(content))]. *)
Definition update_twice (content : str) (st : state) : result str * state :=
  match update_yaml_content content st with
  | (Raise e, st1) => (Raise e, st1)
  | (Ok updated_content, st1) => update_yaml_content updated_content st1
  end.

(** What [update_yaml_content] does with the inner text [yaml_text], read
    off its code: parse, check the shape, copy and print, serialize, strip,
    split. *)
Definition block_lines (yaml_text : str) (h : heap) : block_outcome :=
  match safe_load yaml_text h with
  | (Loaded data, h1) =>
      if is_dict data h1 then
        match update_yaml_field data (State h1 []) with
        | (Ok data', st2) =>
            match safe_dump data' (st_heap st2) with
            | Dumped text => Rewritten (splitlines (strip text))
            | DumpError e => Failed (DumpFailed e)
            end
        | (Raise e, _) => Failed e
        end
      else LeftAlone
  | (LoadError _, _) => LeftAlone
  end.

(** A second run repeats the first on [content], the first starting with
    store [h] and the second with store [h']: either no block is found; or
    the block is left alone by both runs; or the block is rewritten, the
    lines written hold no delimiter line and are written again as they are
    by the second run, and the text does not end in a blank line. A run
    that an exception leaves is none of these. *)
Definition stable_on (content : str) (h h' : heap) : Prop :=
  match find_yaml_block_indices content with
  | (Some start_index, Some end_index) =>
      let yaml_text :=
        join (slice (start_index + 1) end_index (splitlines content)) in
      match block_lines yaml_text h with
      | Rewritten block =>
          no_delimiter block
          ∧ block_lines (join block) h' = Rewritten block
          ∧ no_trailing_blank_line content
      | LeftAlone => block_lines yaml_text h' = LeftAlone
      | Failed _ => False
      end
  | _ => True
  end.

(** *** [list_note_files] and [main] *)

(** [file_path.name]. *)
Variable path_name : path -> str.

(** [directory.iterdir()], as the list it yields; [None] when it raises. *)
Variable iterdir : path -> files -> option (list path).

(** [file_path.is_file()]; [None] when it raises (an [OSError] other than
    the few it answers [False] to). *)
Variable is_file : path -> files -> option bool.

Variable NOTES_DIRECTORY : path.

(** The list comprehension: [is_file()] is asked of every entry, in the
    order of the listing, and an exception of it ends the comprehension. *)
Fixpoint select_files (entries : list path) (fs : files)
  : option (list path) :=
  match entries with
  | [] => Some []
  | file_path :: rest =>
      match is_file file_path fs with
      | None => None
      | Some regular =>
          match select_files rest fs with
          | None => None
          | Some selected =>
              if regular && re_match FILE_NAME_PATTERN (path_name file_path)
              then Some (file_path :: selected)
              else Some selected
          end
      end
  end.

(** [None] when [iterdir] or [is_file] raises. *)
Definition list_note_files (directory : path) (fs : files)
  : option (list path) :=
  match iterdir directory fs with
  | None => None
  | Some entries => select_files entries fs
  end.

(** [for file_path in file_paths: process_file(file_path)]. *)
Fixpoint process_files (file_paths : list path) (fs : files) (st : state)
  : result unit * files * state :=
  match file_paths with
  | [] => (Ok tt, fs, st)
  | file_path :: rest =>
      match process_file file_path fs st with
      | (Ok _, fs1, st1) => process_files rest fs1 st1
      | (Raise e, fs1, st1) => (Raise e, fs1, st1)
      end
  end.

(** How a run ends: [main] returns, an exception of the pipeline leaves it,
    or the listing of the directory raised. *)
Inductive run_outcome :=
  | RunDone
  | RunRaised (e : exn)
  | RunListingFailed.

Definition main (fs : files) (st : state) : run_outcome * files * state :=
  match list_note_files NOTES_DIRECTORY fs with
  | None => (RunListingFailed, fs, st)
  | Some file_paths =>
      match process_files file_paths fs st with
      | (Ok _, fs1, st1) => (RunDone, fs1, st1)
      | (Raise e, fs1, st1) => (RunRaised e, fs1, st1)
      end
  end.

End Pipeline.

(** ** PyYAML on three texts *)

(** What PyYAML answers on the texts the examples below use: a one-entry
    mapping, a two-item sequence and the empty document, and what it prints
    for the values it loaded from them. The table stands for no other text. *)
Module Sample.

Definition mapping_k1 : obj := ODict [(VStr (py "k"), VInt 1)].
Definition sequence_12 : obj := OList [VInt 1; VInt 2].

Definition safe_load (text : str) (h : heap) : loaded * heap :=
  if bool_decide (text = py "k: 1") then
    (Loaded (VRef (length h)), h ++ [mapping_k1])
  else if bool_decide (text = py "- 1\n- 2") then
    (Loaded (VRef (length h)), h ++ [sequence_12])
  else if bool_decide (text = []) then (Loaded VNone, h)
  else (LoadError (py "not in the table"), h).

Definition safe_dump (data : value) (h : heap) : dumped :=
  match data with
  | VRef l =>
      match h !! l with
      | Some (ODict [(VStr k, VInt 1)]) =>
          if bool_decide (k = py "k") then Dumped (py "k: 1\n")
          else DumpError (py "not in the table")
      | Some (OList [VInt 1; VInt 2]) => Dumped (py "- 1\n- 2\n")
      | _ => DumpError (py "not in the table")
      end
  | VNone => Dumped (py "null\n...\n")
  | _ => DumpError (py "not in the table")
  end.

(** The values of the table are printed without error. *)
Definition print_error (data : value) (h : heap) : option str := None.

(** The interpreter at start-up: no object, nothing printed. *)
Definition st0 : state := State [] [].

(** A file system with one slot per path. *)
Definition read_text (file_path : nat) (fs : list str) : option str :=
  fs !! file_path.

Definition write_text (file_path : nat) (text : str) (fs : list str)
  : list str * bool :=
  (<[file_path := text]> fs, true).

(** A directory of four entries, all regular files, the path of an entry
    being its position: the first two carry the five letters, a digit and
    [.md]. *)
Definition names : list str :=
  [book_prefix ++ py "1.md"; book_prefix ++ py "2.md"; py "notes.md";
   book_prefix ++ py ".txt"].

Definition path_name (file_path : nat) : str :=
  default [] (names !! file_path).

Definition iterdir (directory : nat) (fs : list str) : option (list nat) :=
  Some (seq 0 (length names)).

Definition is_file (file_path : nat) (fs : list str) : option bool :=
  Some true.

(** The texts of the four files. *)
Definition notes : list str :=
  [py "A\n---\nk: 1\n---\nB\n"; py "---\n- 1\n- 2\n---\n"; py "k: 1\n";
   py "---\nk: 1\n---\n"].

End Sample.

(** ** An integer beyond the digit limit *)

(** PyYAML reads a hexadecimal integer of any length, while [str] of an
    [int] of more than 4300 decimal digits raises [ValueError]; [print] and
    [yaml.safe_dump] both go through it. The mapping is the one PyYAML
    loads from [k: 0x1] followed by 3600 zeros, which is 16 to the power
    3600, an integer of 4335 digits. *)
Module Limit.

Definition big : Z := (16 ^ 3600)%Z.

Definition big_text : str := py "k: 0x1" ++ replicate 3600 48%N.

Definition mapping_big : obj := ODict [(VStr (py "k"), VInt big)].

(** [str(n)] raises. *)
Definition too_long (n : Z) : bool := (10 ^ 4300 <=? Z.abs n)%Z.

(** Some value of the mapping at [data] is an integer [str] cannot render. *)
Definition holds_too_long (data : value) (h : heap) : bool :=
  match data with
  | VRef l =>
      match h !! l with
      | Some (ODict entries) =>
          existsb (λ kv, match kv.2 with
                         | VInt n => too_long n
                         | _ => false
                         end) entries
      | _ => false
      end
  | _ => false
  end.

Definition digit_limit : str := py "Exceeds the limit (4300 digits)".

Definition safe_load (text : str) (h : heap) : loaded * heap :=
  if bool_decide (text = big_text) then
    (Loaded (VRef (length h)), h ++ [mapping_big])
  else Sample.safe_load text h.

Definition print_error (data : value) (h : heap) : option str :=
  if holds_too_long data h then Some digit_limit else None.

Definition safe_dump (data : value) (h : heap) : dumped :=
  if holds_too_long data h then DumpError digit_limit
  else Sample.safe_dump data h.

End Limit.

(** * Properties *)

(** ** Lines and their terminators *)

Lemma splitlines_cons_plain c rest :
  is_linebreak c = false →
  splitlines (c :: rest) =
    match splitlines rest with
    | [] => [[c]]
    | l :: ls => (c :: l) :: ls
    end.
Proof. intros Hc. simpl. by rewrite Hc. Qed.

Lemma splitlines_cons_newline rest :
  splitlines (10%N :: rest) = [] :: splitlines rest.
Proof. simpl. by destruct rest. Qed.

(** Every line that [splitlines] returns is free of terminators. *)
Lemma splitlines_plain s : Forall plain (splitlines s).
Proof.
  remember (length s) as n eqn:Hn.
  revert s Hn. induction (lt_wf n) as [n _ IH]. intros s ->.
  destruct s as [|c rest]; [constructor|].
  simpl. destruct (is_linebreak c) eqn:Hc.
  - constructor; [constructor|].
    destruct rest as [|c' rest']; [constructor|].
    destruct ((c =? 13)%N && (c' =? 10)%N).
    + eapply (IH (length rest')); [simpl; lia | done].
    + eapply (IH (length (c' :: rest'))); [simpl; lia | done].
  - assert (Hrest : Forall plain (splitlines rest))
      by (eapply (IH (length rest)); [simpl; lia | done]).
    destruct (splitlines rest) as [|l ls].
    + repeat constructor. done.
    + inversion Hrest; subst. constructor; [by constructor | done].
Qed.

(** A plain text followed by a line feed is a line of its own. *)
Lemma splitlines_app_newline l rest :
  plain l → splitlines (l ++ 10%N :: rest) = l :: splitlines rest.
Proof.
  induction 1 as [|c l Hc _ IH]; simpl app.
  - apply splitlines_cons_newline.
  - by rewrite splitlines_cons_plain, IH.
Qed.

(** A plain, non-empty text is its only line. *)
Lemma splitlines_single l : plain l → l ≠ [] → splitlines l = [l].
Proof.
  induction 1 as [|c l Hc Hl IH]; [done|]. intros _.
  rewrite splitlines_cons_plain by done.
  destruct l as [|c' l']; [done|]. by rewrite IH.
Qed.

(** Splitting undoes joining, unless the last line is empty. *)
Lemma splitlines_join lines :
  Forall plain lines → last lines ≠ Some [] →
  splitlines (join lines) = lines.
Proof.
  induction 1 as [|l ls Hl Hls IH]; [done|]. intros Hlast.
  destruct ls as [|l' ls'].
  - simpl. apply splitlines_single; [done|]. intros ->. by apply Hlast.
  - change (join (l :: l' :: ls')) with (l ++ 10%N :: join (l' :: ls')).
    rewrite splitlines_app_newline by done. f_equal. apply IH.
    by rewrite last_cons_cons in Hlast.
Qed.

(** A final empty line is lost on the way. *)
Lemma splitlines_join_blank lines :
  Forall plain lines → splitlines (join (lines ++ [[]])) = lines.
Proof.
  induction 1 as [|l ls Hl Hls IH]; [done|].
  destruct ls as [|l' ls'].
  - simpl. rewrite splitlines_app_newline by done. done.
  - change (join ((l :: l' :: ls') ++ [[]]))
      with (l ++ 10%N :: join ((l' :: ls') ++ [[]])).
    rewrite splitlines_app_newline by done. by rewrite IH.
Qed.

(** ** The two scans of [find_yaml_block_indices] *)

Lemma is_delimiter_true line :
  is_delimiter line = true ↔ strip line = delimiter.
Proof. unfold is_delimiter. apply bool_decide_eq_true. Qed.

Lemma is_delimiter_delimiter : is_delimiter delimiter = true.
Proof. reflexivity. Qed.

Lemma plain_delimiter : plain delimiter.
Proof. repeat constructor. Qed.

(** The first scan stops at the first delimiter line: it splits the lines
    into a delimiter-free prefix, the delimiter line and the rest. *)
Lemma scan_enumerate_Some idx lines k :
  scan_enumerate idx lines = Some k →
  ∃ pre d rest,
    lines = pre ++ d :: rest ∧ k = idx + length pre ∧
    no_delimiter pre ∧ is_delimiter d = true.
Proof.
  unfold no_delimiter.
  revert idx. induction lines as [|line rest IH]; intros idx; [done|].
  simpl. destruct (is_delimiter line) eqn:Hd.
  - intros [= <-]. exists [], line, rest. simpl. split_and!; auto with lia.
  - intros (pre & d & rest' & -> & -> & Hpre & Hd')%IH.
    exists (line :: pre), d, rest'. simpl.
    split_and!; auto with lia.
Qed.

Lemma scan_enumerate_app idx pre d rest :
  no_delimiter pre → is_delimiter d = true →
  scan_enumerate idx (pre ++ d :: rest) = Some (idx + length pre).
Proof.
  intros Hpre Hd. revert idx.
  induction Hpre as [|line pre Hline _ IH]; intros idx; simpl.
  - rewrite Hd. f_equal. lia.
  - rewrite Hline, IH. f_equal. lia.
Qed.

Lemma scan_enumerate_None idx lines :
  scan_enumerate idx lines = None ↔ no_delimiter lines.
Proof.
  unfold no_delimiter.
  revert idx. induction lines as [|line rest IH]; intros idx; simpl.
  - split; [constructor | done].
  - destruct (is_delimiter line) eqn:Hd.
    + split; [done|]. inversion 1; congruence.
    + rewrite IH. split; [by constructor | by inversion 1].
Qed.

(** The second scan is the first scan run on the lines from [lo] on. *)
Lemma scan_range_seq lines n lo :
  lo + n = length lines →
  scan_range lines (seq lo n) = scan_enumerate lo (drop lo lines).
Proof.
  revert lo. induction n as [|n IH]; intros lo Hlen.
  - rewrite drop_ge by lia. done.
  - destruct (lookup_lt_is_Some_2 lines lo) as [line Hline]; [lia|].
    simpl. rewrite Hline. rewrite (drop_S _ _ _ Hline). simpl.
    destruct (is_delimiter line); [done|]. apply IH. lia.
Qed.

Lemma scan_range_drop lines lo :
  lo ≤ length lines →
  scan_range lines (range lo (length lines))
  = scan_enumerate lo (drop lo lines).
Proof. intros Hlo. unfold range. apply scan_range_seq. lia. Qed.

Lemma filter_no_delimiter lines :
  no_delimiter lines ↔ List.filter is_delimiter lines = [].
Proof.
  unfold no_delimiter.
  induction lines as [|line rest IH]; simpl.
  - split; [done | constructor].
  - destruct (is_delimiter line) eqn:Hd.
    + split; [inversion 1; congruence | done].
    + rewrite <- IH. split; [by inversion 1 | by constructor].
Qed.

Lemma filter_delimiter_app pre d rest :
  no_delimiter pre → is_delimiter d = true →
  List.filter is_delimiter (pre ++ d :: rest)
  = d :: List.filter is_delimiter rest.
Proof.
  intros Hpre Hd. rewrite List.filter_app. simpl. rewrite Hd.
  apply filter_no_delimiter in Hpre. by rewrite Hpre.
Qed.

(** ** The block locator on a text cut at its delimiter lines *)

Lemma drop_past {A} (pre : list A) d rest :
  drop (length pre + 1) (pre ++ d :: rest) = rest.
Proof.
  induction pre as [|x pre IH]; simpl; [by rewrite drop_0 | done].
Qed.

Lemma find_no_delimiter content :
  no_delimiter (splitlines content) →
  find_yaml_block_indices content = (None, None).
Proof.
  intros H%(scan_enumerate_None 0). unfold find_yaml_block_indices.
  by rewrite H.
Qed.

Lemma find_unterminated content pre d rest :
  splitlines content = pre ++ d :: rest →
  no_delimiter pre → is_delimiter d = true → no_delimiter rest →
  find_yaml_block_indices content = (Some (length pre), None).
Proof.
  intros Hlines Hpre Hd Hrest. unfold find_yaml_block_indices.
  rewrite Hlines, (scan_enumerate_app 0) by done. simpl.
  rewrite scan_range_drop by (rewrite length_app; simpl; lia).
  rewrite drop_past.
  by apply (scan_enumerate_None (length pre + 1)) in Hrest as ->.
Qed.

Lemma find_terminated content pre d1 mid d2 post :
  splitlines content = pre ++ d1 :: mid ++ d2 :: post →
  no_delimiter pre → is_delimiter d1 = true →
  no_delimiter mid → is_delimiter d2 = true →
  find_yaml_block_indices content
  = (Some (length pre), Some (length pre + 1 + length mid)).
Proof.
  intros Hlines Hpre Hd1 Hmid Hd2. unfold find_yaml_block_indices.
  rewrite Hlines, (scan_enumerate_app 0) by done. simpl.
  rewrite scan_range_drop by (rewrite length_app; simpl; lia).
  by rewrite drop_past, scan_enumerate_app.
Qed.

(** Whatever the locator returns, the lines are cut accordingly. *)
Lemma find_inv content :
  let lines := splitlines content in
  match find_yaml_block_indices content with
  | (None, None) => no_delimiter lines
  | (Some s, None) =>
      ∃ pre d rest,
        lines = pre ++ d :: rest ∧ s = length pre ∧
        no_delimiter pre ∧ is_delimiter d = true ∧ no_delimiter rest
  | (Some s, Some e) =>
      ∃ pre d1 mid d2 post,
        lines = pre ++ d1 :: mid ++ d2 :: post ∧
        s = length pre ∧ e = length pre + 1 + length mid ∧
        no_delimiter pre ∧ is_delimiter d1 = true ∧
        no_delimiter mid ∧ is_delimiter d2 = true
  | (None, Some _) => False
  end.
Proof.
  intros lines. unfold find_yaml_block_indices. fold lines.
  destruct (scan_enumerate 0 lines) as [s|] eqn:Hs.
  - apply scan_enumerate_Some in Hs as (pre & d & rest & Hl & -> & Hpre & Hd).
    simpl. rewrite scan_range_drop by (rewrite Hl, length_app; simpl; lia).
    rewrite Hl, drop_past.
    destruct (scan_enumerate _ rest) as [e|] eqn:He.
    + apply scan_enumerate_Some in He
        as (mid & d2 & post & -> & -> & Hmid & Hd2).
      exists pre, d, mid, d2, post. split_and!; auto with lia.
    + apply scan_enumerate_None in He. by exists pre, d, rest.
  - by apply scan_enumerate_None in Hs.
Qed.

(** The three parts the pipeline takes out of a text cut at the block. *)
Lemma cut_take {A} (pre : list A) d1 mid d2 post :
  take (length pre) (pre ++ d1 :: mid ++ d2 :: post) = pre.
Proof. by rewrite take_app_length. Qed.

Lemma cut_slice {A} (pre : list A) d1 mid d2 post :
  slice (length pre + 1) (length pre + 1 + length mid)
    (pre ++ d1 :: mid ++ d2 :: post) = mid.
Proof.
  unfold slice. rewrite drop_past.
  replace (length pre + 1 + length mid - (length pre + 1))
    with (length mid) by lia.
  by rewrite take_app_length.
Qed.

Lemma cut_drop {A} (pre : list A) d1 mid d2 post :
  drop (length pre + 1 + length mid + 1) (pre ++ d1 :: mid ++ d2 :: post)
  = post.
Proof.
  replace (length pre + 1 + length mid + 1)
    with (length pre + 1 + (length mid + 1)) by lia.
  by rewrite <- drop_drop, !drop_past.
Qed.


(** How many delimiter lines there are decides the shape of the answer. *)
Lemma find_delimiter_count content :
  match find_yaml_block_indices content with
  | (None, None) => delimiter_count content = 0
  | (Some _, None) => delimiter_count content = 1
  | (Some _, Some _) => 2 ≤ delimiter_count content
  | (None, Some _) => False
  end.
Proof.
  pose proof (find_inv content) as H. simpl in H. unfold delimiter_count.
  destruct (find_yaml_block_indices content) as [[s|] [e|]]; [| | done |].
  - destruct H as (pre & d1 & mid & d2 & post & -> & _ & _ & ? & ? & ? & ?).
    rewrite filter_delimiter_app, filter_delimiter_app by done. simpl. lia.
  - destruct H as (pre & d & rest & -> & _ & ? & ? & Hrest).
    rewrite filter_delimiter_app by done.
    apply filter_no_delimiter in Hrest. by rewrite Hrest.
  - apply filter_no_delimiter in H. by rewrite H.
Qed.

(** ** The content rebuilder, line by line *)

Lemma new_content_lines_before content s e updated_yaml i :
  s ≤ length (splitlines content) → i < s →
  new_content_lines content s e updated_yaml !! i = splitlines content !! i.
Proof.
  intros Hs Hi. unfold new_content_lines.
  rewrite lookup_app_l by (rewrite length_take; lia).
  by rewrite lookup_take_lt.
Qed.

Lemma new_content_lines_after content s e updated_yaml k :
  s ≤ length (splitlines content) →
  new_content_lines content s e updated_yaml
    !! (s + 1 + length (splitlines updated_yaml) + 1 + k)
  = splitlines content !! (e + 1 + k).
Proof.
  intros Hs. unfold new_content_lines.
  rewrite lookup_app_r by (rewrite length_take; lia).
  rewrite length_take, Nat.min_l by done.
  rewrite lookup_app_r by (simpl; lia).
  rewrite lookup_app_r by (simpl; lia).
  rewrite lookup_app_r by (simpl; lia).
  rewrite lookup_drop. f_equal. simpl. lia.
Qed.

(** ** The block locator *)

Lemma cut_lookup_start {A} (pre : list A) d1 rest :
  (pre ++ d1 :: rest) !! length pre = Some d1.
Proof. apply list_lookup_middle. done. Qed.

Lemma cut_lookup_inner {A} (pre : list A) d1 rest k :
  (pre ++ d1 :: rest) !! (length pre + 1 + k) = rest !! k.
Proof.
  rewrite lookup_app_r by lia.
  replace (length pre + 1 + k - length pre) with (S k) by lia. done.
Qed.

(** The two indices, when both are returned, are in order and in range. *)
Lemma find_bounds content s e :
  find_yaml_block_indices content = (Some s, Some e) →
  s < e ∧ e < length (splitlines content).
Proof.
  intros Hfind. pose proof (find_inv content) as H. simpl in H.
  rewrite Hfind in H.
  destruct H as (pre & d1 & mid & d2 & post & -> & -> & -> & _).
  rewrite length_app. simpl. rewrite length_app. simpl. lia.
Qed.

(** C9. Whenever [find_yaml_block_indices] returns two indices, the start
    index is strictly below the end index, both are indices of lines of the
    text, and the trimmed content of both lines is exactly ["---"]. *)
Theorem find_yaml_block_indices_invariant content start_index end_index :
  find_yaml_block_indices content = (Some start_index, Some end_index) →
  start_index < end_index
  ∧ end_index < length (splitlines content)
  ∧ delimiter_at (splitlines content) start_index
  ∧ delimiter_at (splitlines content) end_index.
Proof.
  intros Hfind. pose proof (find_inv content) as H. simpl in H.
  rewrite Hfind in H.
  destruct H as (pre & d1 & mid & d2 & post & -> & -> & -> & _ & Hd1 & _ & Hd2).
  split_and!.
  - lia.
  - rewrite length_app. simpl. rewrite length_app. simpl. lia.
  - exists d1. split; [apply cut_lookup_start | by apply is_delimiter_true].
  - exists d2. split; [|by apply is_delimiter_true].
    rewrite cut_lookup_inner. apply cut_lookup_start.
Qed.

Lemma find_yaml_block_indices_invariant_witness :
  let content := py "A\n---\nk: 1\n---\nB\n" in
  1 < 3 ∧ 3 < length (splitlines content)
  ∧ delimiter_at (splitlines content) 1
  ∧ delimiter_at (splitlines content) 3.
Proof.
  apply (find_yaml_block_indices_invariant (py "A\n---\nk: 1\n---\nB\n") 1 3).
  reflexivity.
Defined.



(** C7. On a text with an opening delimiter line and no closing one the
    locator returns the start index paired with [None], which is not the
    [(None, None)] it returns on a text without any delimiter line. *)
Theorem find_unterminated_keeps_start :
  find_yaml_block_indices (py "---\nk: 1\n") = (Some 0, None)
  ∧ find_yaml_block_indices (py "k: 1\n") = (None, None).
Proof. split; reflexivity. Qed.

(** The same on every text with exactly one delimiter line. *)
Lemma find_one_delimiter content :
  delimiter_count content = 1 →
  ∃ start_index,
    find_yaml_block_indices content = (Some start_index, None).
Proof.
  intros Hcount. pose proof (find_delimiter_count content) as H.
  destruct (find_yaml_block_indices content) as [[s|] [e|]];
    try done; [lia | by exists s | lia].
Qed.

(** ** The field updater *)

(** C8. [update_yaml_field] changes no object of the store, its input
    among them, and allocates a new dictionary, at an address of its own,
    with the entries of its input: the same keys and the same values. When
    [print] returns, the new dictionary is what it returns; when [print]
    raises, the exception leaves it and nothing is returned. *)
Theorem update_yaml_field_copies print_error st l entries :
  st_heap st !! l = Some (ODict entries) →
  ∃ r st',
    update_yaml_field print_error (VRef l) st = (r, st')
    ∧ (∀ k o, st_heap st !! k = Some o → st_heap st' !! k = Some o)
    ∧ st_heap st' !! l = Some (ODict entries)
    ∧ length (st_heap st) ≠ l
    ∧ st_heap st' !! length (st_heap st) = Some (ODict entries)
    ∧ length (st_heap st') = S (length (st_heap st))
    ∧ match print_error (VRef (length (st_heap st))) (st_heap st') with
      | None =>
          r = Ok (VRef (length (st_heap st)))
          ∧ st_out st' = st_out st ++ [Printed (ODict entries)]
      | Some e => r = Raise (PrintFailed e) ∧ st_out st' = st_out st
      end.
Proof.
  intros Hl. unfold update_yaml_field, emit. rewrite Hl. simpl.
  assert (l < length (st_heap st)) by by eapply lookup_lt_Some.
  destruct (print_error _ (st_heap st ++ [ODict entries])) as [e|] eqn:Hp;
    eexists _, _; (split; [done|]); simpl; rewrite Hp;
    split_and!;
    first [ done | lia | by apply lookup_app_l_Some
          | by apply list_lookup_middle
          | intros k o Hk; by apply lookup_app_l_Some
          | rewrite length_app; simpl; lia ].
Qed.

Lemma update_yaml_field_copies_witness :
  let st := State [Sample.sequence_12; Sample.mapping_k1] [] in
  ∃ r st',
    update_yaml_field Sample.print_error (VRef 1) st = (r, st')
    ∧ (∀ k o, st_heap st !! k = Some o → st_heap st' !! k = Some o)
    ∧ st_heap st' !! 1 = Some Sample.mapping_k1
    ∧ length (st_heap st) ≠ 1
    ∧ st_heap st' !! length (st_heap st) = Some Sample.mapping_k1
    ∧ length (st_heap st') = S (length (st_heap st))
    ∧ match Sample.print_error (VRef (length (st_heap st))) (st_heap st') with
      | None =>
          r = Ok (VRef (length (st_heap st)))
          ∧ st_out st' = st_out st ++ [Printed Sample.mapping_k1]
      | Some e => r = Raise (PrintFailed e) ∧ st_out st' = st_out st
      end.
Proof.
  apply (update_yaml_field_copies Sample.print_error
           (State [Sample.sequence_12; Sample.mapping_k1] []) 1).
  reflexivity.
Defined.

(** On the mapping that holds an integer of 4335 digits [print] raises:
    the copy is made, nothing is printed and nothing is returned. *)
Lemma update_yaml_field_raises :
  update_yaml_field Limit.print_error (VRef 0) (State [Limit.mapping_big] [])
  = (Raise (PrintFailed Limit.digit_limit),
     State [Limit.mapping_big; Limit.mapping_big] []).
Proof. vm_compute. reflexivity. Qed.

(** ** The pipeline, for any YAML library *)

Section PipelineFacts.

Variable safe_load : str → heap → loaded * heap.
Variable safe_dump : value → heap → dumped.
Variable print_error : value → heap → option str.
Variable path : Type.
Variable files : Type.
Variable read_text : path → files → option str.
Variable write_text : path → str → files → files * bool.

(** A text that comes back as it was is not written. *)
Lemma process_file_unchanged file_path fs content st st1 :
  read_text file_path fs = Some content →
  update_yaml_content safe_load safe_dump print_error content st = (Ok content,
      st1) →
  process_file safe_load safe_dump print_error path files read_text write_text
    file_path fs st = (Ok tt, fs, st1).
Proof.
  intros Hread Hupd. unfold process_file. rewrite Hread, Hupd.
  by rewrite bool_decide_eq_false_2 by (by intros []).
Qed.

(** C2. On a text with exactly one delimiter line the block parser raises
    [YamlBlockNotFound], without calling the YAML library. *)
Theorem extract_yaml_data_unterminated content st :
  delimiter_count content = 1 →
  extract_yaml_data safe_load content st = (Raise YamlBlockNotFound, st).
Proof.
  intros [s Hfind]%find_one_delimiter.
  unfold extract_yaml_data. by rewrite Hfind.
Qed.

(** C3. On a text without delimiter line the locator returns
    [(None, None)], [update_yaml_content] returns the text as it is, and
    [process_file] leaves the files as they are. *)
Theorem no_delimiter_no_change content st :
  delimiter_count content = 0 →
  find_yaml_block_indices content = (None, None)
  ∧ update_yaml_content safe_load safe_dump print_error content st
    = (Ok content, emit (LogError MsgBlockNotFound) st)
  ∧ ∀ file_path fs,
      read_text file_path fs = Some content →
      process_file safe_load safe_dump print_error path files read_text
          write_text
        file_path fs st
      = (Ok tt, fs, emit (LogError MsgBlockNotFound) st).
Proof.
  intros Hcount.
  assert (Hfind : find_yaml_block_indices content = (None, None)).
  { pose proof (find_delimiter_count content) as H.
    destruct (find_yaml_block_indices content) as [[s|] [e|]];
      try done; lia. }
  assert (Hupd : update_yaml_content safe_load safe_dump print_error content st
                 = (Ok content, emit (LogError MsgBlockNotFound) st)).
  { unfold update_yaml_content, extract_yaml_data. by rewrite Hfind. }
  split_and!; [done | done |].
  intros file_path fs Hread. by apply (process_file_unchanged _ _ content).
Qed.

(** C6. When the inner text of the block parses to something that is not a
    mapping, [update_yaml_content] logs the shape violation and returns the
    text as it is, and [process_file] leaves the files as they are. *)
Theorem non_mapping_no_change content st start_index end_index data h :
  find_yaml_block_indices content = (Some start_index, Some end_index) →
  safe_load
    (join (slice (start_index + 1) end_index (splitlines content)))
    (st_heap st) = (Loaded data, h) →
  is_dict data h = false →
  update_yaml_content safe_load safe_dump print_error content st
  = (Ok content, emit (LogError MsgNotADict) (State h (st_out st)))
  ∧ ∀ file_path fs,
      read_text file_path fs = Some content →
      process_file safe_load safe_dump print_error path files read_text
          write_text
        file_path fs st
      = (Ok tt, fs, emit (LogError MsgNotADict) (State h (st_out st))).
Proof.
  intros Hfind Hload Hshape.
  assert (Hupd : update_yaml_content safe_load safe_dump print_error content st
            = (Ok content, emit (LogError MsgNotADict) (State h (st_out st)))).
  { unfold update_yaml_content, extract_yaml_data.
    rewrite Hfind, Hload. simpl. by rewrite Hshape. }
  split; [done|]. intros file_path fs Hread.
  by apply (process_file_unchanged _ _ content).
Qed.

(** *** What [update_yaml_content] returns *)

(** What is returned, in terms of what is done with the block. *)
Lemma update_yaml_content_text content st :
  (update_yaml_content safe_load safe_dump print_error content st).1
  = match find_yaml_block_indices content with
    | (Some start_index, Some end_index) =>
        let lines := splitlines content in
        match block_lines safe_load safe_dump print_error
                (join (slice (start_index + 1) end_index lines))
                (st_heap st) with
        | Rewritten block =>
            Ok (join (take start_index lines ++ [delimiter] ++ block
                        ++ [delimiter] ++ drop (end_index + 1) lines))
        | LeftAlone => Ok content
        | Failed e => Raise e
        end
    | _ => Ok content
    end.
Proof.
  unfold update_yaml_content, extract_yaml_data, block_lines.
  destruct (find_yaml_block_indices content) as [[s|] [e|]]; try done.
  simpl.
  destruct (safe_load _ (st_heap st)) as [[data|err] h1]; [|done].
  simpl. destruct (is_dict data h1) eqn:Hshape; simpl; [|done].
  destruct data as [| | | | |l]; try done. simpl in Hshape.
  unfold update_yaml_field. simpl.
  destruct (h1 !! l) as [[entries|]|]; try done.
  destruct (print_error _ _); [done|]. simpl.
  by destruct (safe_dump _ _).
Qed.

Lemma block_lines_plain yaml_text h block :
  block_lines safe_load safe_dump print_error yaml_text h = Rewritten block →
  Forall plain block.
Proof.
  unfold block_lines.
  destruct (safe_load yaml_text h) as [[data|err] h1]; [|done].
  destruct (is_dict data h1); [|done].
  destruct (update_yaml_field _ data (State h1 [])) as [[d|e] st2]; [|done].
  destruct (safe_dump _ _); [|done].
  intros [= <-]. apply splitlines_plain.
Qed.

(** *** Running twice *)

Lemma last_cut {A} (pre : list A) d1 mid d2 post :
  last (pre ++ d1 :: mid ++ d2 :: post) = last (d2 :: post).
Proof.
  rewrite last_app. change (d1 :: mid ++ d2 :: post)
    with ((d1 :: mid) ++ d2 :: post).
  rewrite last_app. by destruct (last (d2 :: post)) eqn:E;
    [| by apply last_None in E].
Qed.

(** A run on the text a stable run returned gives that text again. *)
Lemma update_yaml_content_rerun content st st' text :
  (update_yaml_content safe_load safe_dump print_error content st).1 = Ok text →
  stable_on safe_load safe_dump print_error content (st_heap st) (st_heap st') →
  (update_yaml_content safe_load safe_dump print_error text st').1 = Ok text.
Proof.
  rewrite !update_yaml_content_text. unfold stable_on.
  pose proof (find_inv content) as Hcut. simpl in Hcut.
  pose proof (splitlines_plain content) as Hplain.
  destruct (find_yaml_block_indices content) as [[s|] [e|]] eqn:Hfind.
  2-4: by intros [= <-] _; rewrite Hfind.
  destruct Hcut as (pre & d1 & mid & d2 & post & Hl & -> & -> & Hpre & Hd1 &
      Hmid & Hd2).
  simpl.
  destruct (block_lines _ _ _ _ (st_heap st)) as [block| |err] eqn:Hblock.
  - intros [= <-] (Hno & Hagain & Htrail).
    rewrite Hl, cut_take, cut_drop in *.
    assert (Hsplit :
      splitlines (join (pre ++ delimiter :: block ++ delimiter :: post))
      = pre ++ delimiter :: block ++ delimiter :: post).
    { apply splitlines_join.
      - apply Forall_app in Hplain as [Hp1 Hp2].
        apply Forall_cons in Hp2 as [_ Hp2].
        apply Forall_app in Hp2 as [_ Hp2].
        apply Forall_cons in Hp2 as [_ Hp2].
        apply block_lines_plain in Hblock.
        repeat first [apply Forall_app; split | apply Forall_cons; split];
          auto using plain_delimiter.
      - rewrite last_cut. unfold no_trailing_blank_line in Htrail.
        rewrite Hl, last_cut in Htrail.
        destruct post as [|p post]; [done|].
        by rewrite last_cons_cons in *. }
    rewrite (find_terminated _ pre delimiter block delimiter post)
      by auto using is_delimiter_delimiter.
    simpl. rewrite Hsplit, cut_take, cut_slice, cut_drop.
    by rewrite Hagain.
  - intros [= <-] Hagain. rewrite Hfind. simpl. by rewrite Hagain.
  - done.
Qed.

Lemma join_snoc_blank lines :
  lines ≠ [] → join (lines ++ [[]]) = join lines ++ [10%N].
Proof.
  induction lines as [|l ls IH]; [done|]. intros _.
  destruct ls as [|l' ls']; [done|].
  change (join ((l :: l' :: ls') ++ [[]]))
    with (l ++ 10%N :: join ((l' :: ls') ++ [[]])).
  rewrite IH by done.
  change (join (l :: l' :: ls')) with (l ++ 10%N :: join (l' :: ls')).
  by rewrite <- (assoc_L (++)).
Qed.

(** X15. When the block is rewritten and the text ends in a blank line, a
    run on the text returned gives that text less its final line feed,
    whatever the YAML library. *)
Lemma update_yaml_content_drift content st st' text s e block :
  find_yaml_block_indices content = (Some s, Some e) →
  block_lines safe_load safe_dump print_error
    (join (slice (s + 1) e (splitlines content))) (st_heap st)
  = Rewritten block →
  no_delimiter block →
  block_lines safe_load safe_dump print_error (join block) (st_heap st')
  = Rewritten block →
  last (splitlines content) = Some [] →
  (update_yaml_content safe_load safe_dump print_error content st).1 = Ok text →
  ∃ text',
    (update_yaml_content safe_load safe_dump print_error text st').1 = Ok text'
    ∧ text = text' ++ [10%N].
Proof.
  intros Hfind Hblock Hno Hagain Hlast.
  rewrite !update_yaml_content_text, Hfind. simpl. rewrite Hblock.
  intros [= <-].
  pose proof (find_inv content) as Hcut. simpl in Hcut.
  pose proof (splitlines_plain content) as Hplain.
  rewrite Hfind in Hcut.
  destruct Hcut
    as (pre & d1 & mid & d2 & post & Hl & -> & -> & Hpre & Hd1 & Hmid & Hd2).
  rewrite Hl in *. rewrite last_cut in Hlast. rewrite cut_take, cut_drop.
  assert (∃ post', post = post' ++ [[]]) as [post' ->].
  { destruct post as [|p post].
    - simpl in Hlast. injection Hlast as ->. done.
    - rewrite last_cons_cons in Hlast. by apply last_Some in Hlast. }
  set (kept := pre ++ delimiter :: block ++ delimiter :: post').
  assert (Hjoin : pre ++ delimiter :: block ++ delimiter :: post' ++ [[]]
                  = kept ++ [[]]).
  { unfold kept. rewrite <- !(assoc_L (++)). simpl.
    by rewrite <- !(assoc_L (++)). }
  rewrite Hjoin.
  assert (Hsplit : splitlines (join (kept ++ [[]])) = kept).
  { apply splitlines_join_blank. unfold kept.
    apply Forall_app in Hplain as [Hp1 Hp2].
    apply Forall_cons in Hp2 as [_ Hp2].
    apply Forall_app in Hp2 as [_ Hp2].
    apply Forall_cons in Hp2 as [_ Hp2].
    apply Forall_app in Hp2 as [Hp2 _].
    apply block_lines_plain in Hblock.
    repeat first [apply Forall_app; split | apply Forall_cons; split];
      auto using plain_delimiter. }
  exists (join kept). split.
  - rewrite (find_terminated _ pre delimiter block delimiter post')
      by auto using is_delimiter_delimiter.
    simpl. rewrite Hsplit. unfold kept.
    rewrite cut_take, cut_slice, cut_drop. by rewrite Hagain.
  - apply join_snoc_blank. unfold kept. by destruct pre.
Qed.

(** C1. [update_yaml_content] applied twice returns what it returns applied
    once, on every text on which the second run repeats the first: no block
    is found; or the block is left alone by both runs; or the block is
    rewritten, the lines written hold no delimiter line and are written
    again as they are, and the text does not end in a blank line. *)
Theorem update_yaml_content_idempotent content st :
  stable_on safe_load safe_dump print_error content (st_heap st)
    (st_heap (update_yaml_content safe_load safe_dump print_error content st).2)
        →
  (update_twice safe_load safe_dump print_error content st).1
  = (update_yaml_content safe_load safe_dump print_error content st).1.
Proof.
  intros Hstable. unfold update_twice.
  destruct (update_yaml_content safe_load safe_dump print_error content st)
    as [[text|e] st1] eqn:Hupd; [|done].
  simpl in *. eapply update_yaml_content_rerun; [|done]. by rewrite Hupd.
Qed.

(** C5. The rebuilt list of lines has the lines before the start index and
    the lines after the end index of the text, unchanged and in order, and
    it is joined by line feeds; the text of the specification's example,
    its block loaded as a mapping whose copy [print] prints and
    [safe_dump] renders as [k: 1], comes back without its final line
    terminator. *)
Theorem outside_block_preserved :
  (∀ content start_index end_index updated_yaml,
     find_yaml_block_indices content = (Some start_index, Some end_index) →
     let lines := splitlines content in
     let new := new_content_lines content start_index end_index updated_yaml in
     build_updated_content content start_index end_index updated_yaml
     = join new
     ∧ (∀ i, i < start_index → new !! i = lines !! i)
     ∧ (∀ k, new !! (start_index + 1 + length (splitlines updated_yaml)
                     + 1 + k)
             = lines !! (end_index + 1 + k))
     ∧ length new
       = start_index + 1 + length (splitlines updated_yaml) + 1
         + (length lines - (end_index + 1)))
  ∧ (∀ st l h entries,
       safe_load (py "k: 1") (st_heap st) = (Loaded (VRef l), h) →
       h !! l = Some (ODict entries) →
       print_error (VRef (length h)) (h ++ [ODict entries]) = None →
       safe_dump (VRef (length h)) (h ++ [ODict entries])
       = Dumped (py "k: 1\n") →
       (update_yaml_content safe_load safe_dump print_error
          (py "A\n---\nk: 1\n---\nB\n") st).1
       = Ok (py "A\n---\nk: 1\n---\nB")).
Proof.
  split.
  - intros content s e updated_yaml Hfind lines new.
    destruct (find_bounds _ _ _ Hfind) as [Hlt Hlen]. fold lines in Hlen.
    split_and!; [done | | |].
    + intros i Hi. apply new_content_lines_before; fold lines; lia.
    + intros k. apply new_content_lines_after; fold lines; lia.
    + unfold new, new_content_lines. fold lines.
      rewrite !length_app, length_take, length_drop. simpl. lia.
  - intros st l h entries Hload Hl Hprint Hdump.
    rewrite update_yaml_content_text.
    change (find_yaml_block_indices (py "A\n---\nk: 1\n---\nB\n"))
      with (Some 1, Some 3).
    cbv zeta.
    assert (Hinner :
      join (slice (1 + 1) 3 (splitlines (py "A\n---\nk: 1\n---\nB\n")))
      = py "k: 1") by reflexivity.
    unfold block_lines, update_yaml_field. rewrite Hinner, Hload. simpl.
    rewrite !Hl. simpl. rewrite Hprint. simpl. rewrite Hdump. reflexivity.
Qed.

End PipelineFacts.

(** ** The pipeline on the sample texts *)

(** C10. On a text whose block holds an integer of 4335 digits, which
    PyYAML loads, [print] raises inside [update_yaml_field] and the
    exception leaves [update_yaml_content]: no text is returned. *)
Theorem update_yaml_content_raises :
  update_yaml_content Limit.safe_load Limit.safe_dump Limit.print_error
    (py "A\n---\n" ++ Limit.big_text ++ py "\n---\nB\n") Sample.st0
  = (Raise (PrintFailed Limit.digit_limit),
     State [Limit.mapping_big; Limit.mapping_big] []).
Proof. vm_compute. reflexivity. Qed.

Lemma extract_yaml_data_unterminated_witness :
  extract_yaml_data Sample.safe_load (py "---\nk: 1\n") Sample.st0
  = (Raise YamlBlockNotFound, Sample.st0).
Proof.
  apply (extract_yaml_data_unterminated Sample.safe_load (py "---\nk: 1\n")).
  reflexivity.
Defined.

Lemma no_delimiter_no_change_witness :
  let content := py "k: 1\nB\n" in
  find_yaml_block_indices content = (None, None)
  ∧ update_yaml_content Sample.safe_load Sample.safe_dump Sample.print_error
      content Sample.st0
    = (Ok content, emit (LogError MsgBlockNotFound) Sample.st0)
  ∧ ∀ file_path fs,
      Sample.read_text file_path fs = Some content →
      process_file Sample.safe_load Sample.safe_dump Sample.print_error nat
          (list str)
        Sample.read_text Sample.write_text file_path fs Sample.st0
      = (Ok tt, fs, emit (LogError MsgBlockNotFound) Sample.st0).
Proof.
  apply (no_delimiter_no_change Sample.safe_load Sample.safe_dump
      Sample.print_error
           nat (list str) Sample.read_text Sample.write_text
           (py "k: 1\nB\n") Sample.st0).
  reflexivity.
Defined.

Lemma non_mapping_no_change_witness :
  let content := py "---\n- 1\n- 2\n---\n" in
  let st1 := emit (LogError MsgNotADict) (State [Sample.sequence_12] []) in
  update_yaml_content Sample.safe_load Sample.safe_dump Sample.print_error
      content Sample.st0
  = (Ok content, st1)
  ∧ ∀ file_path fs,
      Sample.read_text file_path fs = Some content →
      process_file Sample.safe_load Sample.safe_dump Sample.print_error nat
          (list str)
        Sample.read_text Sample.write_text file_path fs Sample.st0
      = (Ok tt, fs, st1).
Proof.
  apply (non_mapping_no_change Sample.safe_load Sample.safe_dump
      Sample.print_error
           nat (list str) Sample.read_text Sample.write_text
           (py "---\n- 1\n- 2\n---\n") Sample.st0 0 3
           (VRef 0) [Sample.sequence_12]);
    reflexivity.
Defined.

Lemma outside_block_preserved_witness :
  let content := py "A\n---\nk: 1\n---\nB\n" in
  let lines := splitlines content in
  let new := new_content_lines content 1 3 (py "k: 1") in
  (build_updated_content content 1 3 (py "k: 1") = join new
   ∧ (∀ i, i < 1 → new !! i = lines !! i)
   ∧ (∀ k, new !! (1 + 1 + length (splitlines (py "k: 1")) + 1 + k)
           = lines !! (3 + 1 + k))
   ∧ length new
     = 1 + 1 + length (splitlines (py "k: 1")) + 1 + (length lines - (3 + 1)))
  ∧ (update_yaml_content Sample.safe_load Sample.safe_dump Sample.print_error
      content
       Sample.st0).1
    = Ok (py "A\n---\nk: 1\n---\nB").
Proof.
  split.
  - apply (proj1 (outside_block_preserved Sample.safe_load Sample.safe_dump
      Sample.print_error)
             (py "A\n---\nk: 1\n---\nB\n") 1 3 (py "k: 1")).
    reflexivity.
  - apply (proj2 (outside_block_preserved Sample.safe_load Sample.safe_dump
      Sample.print_error)
             Sample.st0 0 [Sample.mapping_k1] [(VStr (py "k"), VInt 1)]);
      reflexivity.
Defined.

Lemma update_yaml_content_idempotent_witness :
  (update_twice Sample.safe_load Sample.safe_dump Sample.print_error
     (py "A\n---\nk: 1\n---\nB\n") Sample.st0).1
  = (update_yaml_content Sample.safe_load Sample.safe_dump Sample.print_error
       (py "A\n---\nk: 1\n---\nB\n") Sample.st0).1.
Proof.
  apply (update_yaml_content_idempotent Sample.safe_load Sample.safe_dump
      Sample.print_error
           (py "A\n---\nk: 1\n---\nB\n") Sample.st0).
  vm_compute. split_and!; [repeat constructor | reflexivity | discriminate].
Defined.

(** On a text that ends in a blank line the second application removes one
    more line terminator: with [k: 1] between the delimiters, the first
    returns the text with one line feed at its end, the second with none. *)
Lemma update_twice_differs :
  (update_yaml_content Sample.safe_load Sample.safe_dump Sample.print_error
     (py "---\nk: 1\n---\n\n") Sample.st0).1
  = Ok (py "---\nk: 1\n---\n")
  ∧ (update_twice Sample.safe_load Sample.safe_dump Sample.print_error
       (py "---\nk: 1\n---\n\n") Sample.st0).1
    = Ok (py "---\nk: 1\n---")
  ∧ (update_twice Sample.safe_load Sample.safe_dump Sample.print_error
       (py "---\nk: 1\n---\n\n") Sample.st0).1
    ≠ (update_yaml_content Sample.safe_load Sample.safe_dump Sample.print_error
         (py "---\nk: 1\n---\n\n") Sample.st0).1.
Proof. split_and!; [reflexivity | reflexivity | discriminate]. Qed.

(** * Further properties of the code *)

(** ** Delimiter lines and [strip] *)

Lemma lstrip_app_whitespace ws s :
  whitespace ws → lstrip (ws ++ s) = lstrip s.
Proof.
  induction 1 as [|c ws Hc _ IH]; [done|]. simpl. by rewrite Hc.
Qed.

(** [lstrip] removes a run of whitespace from the front and nothing else. *)
Lemma lstrip_split s : ∃ ws, whitespace ws ∧ s = ws ++ lstrip s.
Proof.
  induction s as [|c s (ws & Hws & IH)].
  - exists []. split; [constructor | done].
  - simpl. destruct (is_space c) eqn:Hc.
    + exists (c :: ws). split; [by constructor|]. simpl. by f_equal.
    + exists []. split; [constructor | done].
Qed.

Lemma rstrip_app_whitespace s ws :
  whitespace ws → rstrip (s ++ ws) = rstrip s.
Proof.
  intros Hws. unfold rstrip. rewrite reverse_app.
  rewrite lstrip_app_whitespace; [done|].
  unfold whitespace in *. by apply Forall_reverse.
Qed.

Lemma rstrip_split s : ∃ ws, whitespace ws ∧ s = rstrip s ++ ws.
Proof.
  destruct (lstrip_split (reverse s)) as (ws & Hws & Hs).
  exists (reverse ws). split.
  - unfold whitespace in *. by apply Forall_reverse.
  - unfold rstrip. rewrite <- reverse_app, <- Hs. by rewrite reverse_involutive.
Qed.

(** X1. A line is a delimiter line exactly when it is ["---"] with any
    whitespace before and after it. *)
Theorem is_delimiter_iff line :
  is_delimiter line = true
  ↔ ∃ ws1 ws2,
      whitespace ws1 ∧ whitespace ws2 ∧ line = ws1 ++ delimiter ++ ws2.
Proof.
  rewrite is_delimiter_true. unfold strip. split.
  - intros Hstrip.
    destruct (lstrip_split line) as (ws1 & Hws1 & Hline).
    destruct (rstrip_split (lstrip line)) as (ws2 & Hws2 & Hrest).
    exists ws1, ws2. split_and!; [done | done |].
    rewrite Hstrip in Hrest. by rewrite <- Hrest.
  - intros (ws1 & ws2 & Hws1 & Hws2 & ->).
    rewrite lstrip_app_whitespace by done.
    change (lstrip (delimiter ++ ws2)) with (delimiter ++ ws2).
    by rewrite rstrip_app_whitespace.
Qed.

(** ** The locator and the rebuilder *)

(** X2. The shape of the locator's answer is decided by the number of
    delimiter lines: none gives [(None, None)], one gives a start without
    an end, two or more give both; an end without a start never occurs. *)
Theorem find_shape content :
  (find_yaml_block_indices content = (None, None)
   ↔ delimiter_count content = 0)
  ∧ ((∃ s, find_yaml_block_indices content = (Some s, None))
     ↔ delimiter_count content = 1)
  ∧ ((∃ s e, find_yaml_block_indices content = (Some s, Some e))
     ↔ 2 ≤ delimiter_count content)
  ∧ ∀ e, find_yaml_block_indices content ≠ (None, Some e).
Proof.
  pose proof (find_delimiter_count content) as H.
  destruct (find_yaml_block_indices content) as [[s|] [e|]]; [| | done |].
  - split_and!; try done.
    + split; [done | lia].
    + split; [by intros [? ?] | lia].
    + split; [done | eauto].
  - split_and!; try done.
    + split; [done | lia].
    + split; [done | eauto].
    + split; [by intros (? & ? & ?) | lia].
  - split_and!; try done.
    + split; [by intros [? ?] | lia].
    + split; [by intros (? & ? & ?) | lia].
Qed.

Lemma join_terminators lines :
  Forall plain lines →
  Forall (λ c, is_linebreak c = true → c = 10%N) (join lines).
Proof.
  induction 1 as [|l ls Hl _ IH]; [constructor|].
  assert (Hline : Forall (λ c, is_linebreak c = true → c = 10%N) l).
  { eapply Forall_impl; [exact Hl|]. simpl. congruence. }
  destruct ls as [|l' ls']; [done|].
  change (join (l :: l' :: ls')) with (l ++ 10%N :: join (l' :: ls')).
  apply Forall_app. split; [done|]. by constructor.
Qed.

Lemma new_content_lines_plain content s e updated_yaml :
  Forall plain (new_content_lines content s e updated_yaml).
Proof.
  unfold new_content_lines.
  pose proof (splitlines_plain content) as Hc.
  repeat first [apply Forall_app; split | apply Forall_cons; split];
    auto using plain_delimiter, splitlines_plain, Forall_take, Forall_drop,
      Forall_nil_2.
Qed.

(** X3. Whatever terminators the text and the serialized block had, the
    only line terminator in the rebuilt text is the line feed. *)
Theorem build_updated_content_terminators content s e updated_yaml :
  Forall (λ c, is_linebreak c = true → c = 10%N)
    (build_updated_content content s e updated_yaml).
Proof. apply join_terminators, new_content_lines_plain. Qed.

Lemma last_new_content_lines content s e updated_yaml :
  last (new_content_lines content s e updated_yaml)
  = last (delimiter :: drop (e + 1) (splitlines content)).
Proof.
  unfold new_content_lines.
  rewrite last_app. simpl.
  change (delimiter :: splitlines updated_yaml
            ++ delimiter :: drop (e + 1) (splitlines content))
    with ((delimiter :: splitlines updated_yaml)
            ++ delimiter :: drop (e + 1) (splitlines content)).
  rewrite last_app.
  by destruct (last (delimiter :: drop (e + 1) (splitlines content))) eqn:E;
    [| apply last_None in E].
Qed.

Lemma last_cons_ne {A} (x : A) (l : list A) (y : A) :
  last l ≠ Some y → x ≠ y → last (x :: l) ≠ Some y.
Proof.
  destruct l as [|z l]; [simpl; congruence|].
  by rewrite last_cons_cons.
Qed.

Lemma splitlines_new_content content s e updated_yaml :
  last (drop (e + 1) (splitlines content)) ≠ Some [] →
  splitlines (join (new_content_lines content s e updated_yaml))
  = new_content_lines content s e updated_yaml.
Proof.
  intros Hlast. apply splitlines_join.
  - apply new_content_lines_plain.
  - rewrite last_new_content_lines. by apply last_cons_ne.
Qed.

(** X4. Unless the text after the block ends in a blank line, splitting the
    rebuilt text gives back the lines it was joined from, so joining them
    again gives the rebuilt text. *)
Theorem build_updated_content_lines content s e updated_yaml :
  last (drop (e + 1) (splitlines content)) ≠ Some [] →
  splitlines (build_updated_content content s e updated_yaml)
  = new_content_lines content s e updated_yaml
  ∧ join (splitlines (build_updated_content content s e updated_yaml))
    = build_updated_content content s e updated_yaml.
Proof.
  intros Hlast. unfold build_updated_content.
  by rewrite splitlines_new_content.
Qed.

Lemma build_updated_content_lines_witness :
  let content := py "A\n---\nk: 1\n---\nB\n" in
  splitlines (build_updated_content content 1 3 (py "k: 1"))
  = new_content_lines content 1 3 (py "k: 1")
  ∧ join (splitlines (build_updated_content content 1 3 (py "k: 1")))
    = build_updated_content content 1 3 (py "k: 1").
Proof.
  apply (build_updated_content_lines
           (py "A\n---\nk: 1\n---\nB\n") 1 3 (py "k: 1")).
  vm_compute. discriminate.
Defined.

(** X5. The locator finds the rewritten block where it was put: on the
    rebuilt text it returns the old start index and the index just behind
    the new block lines, when these hold no delimiter line and the text
    after the block does not end in a blank line. *)
Theorem find_in_rebuilt content s e updated_yaml :
  find_yaml_block_indices content = (Some s, Some e) →
  no_delimiter (splitlines updated_yaml) →
  last (drop (e + 1) (splitlines content)) ≠ Some [] →
  find_yaml_block_indices (build_updated_content content s e updated_yaml)
  = (Some s, Some (s + 1 + length (splitlines updated_yaml))).
Proof.
  intros Hfind Hno Hlast.
  pose proof (find_inv content) as Hcut. simpl in Hcut. rewrite Hfind in Hcut.
  destruct Hcut
    as (pre & d1 & mid & d2 & post & Hl & -> & -> & Hpre & _ & _ & _).
  unfold build_updated_content.
  rewrite (find_terminated _ pre delimiter (splitlines updated_yaml)
             delimiter post); auto using is_delimiter_delimiter.
  rewrite splitlines_new_content by done.
  unfold new_content_lines. by rewrite Hl, cut_take, cut_drop.
Qed.

Lemma find_in_rebuilt_witness :
  find_yaml_block_indices
    (build_updated_content (py "A\n --- \nk: 1\nj: 2\n---\nB\n") 1 4
       (py "k: 1"))
  = (Some 1, Some (1 + 1 + length (splitlines (py "k: 1")))).
Proof.
  apply (find_in_rebuilt (py "A\n --- \nk: 1\nj: 2\n---\nB\n") 1 4
           (py "k: 1")).
  - reflexivity.
  - repeat constructor.
  - vm_compute. discriminate.
Defined.

(** ** The file name pattern *)

Lemma match_here_lit c r b s :
  match_here (One (Lit c) :: r) b s = true
  ↔ ∃ s', s = c :: s' ∧ match_here r false s' = true.
Proof.
  simpl. destruct s as [|c' s']; [split; [done | by intros (? & ? & ?)]|].
  rewrite andb_true_iff, N.eqb_eq. split.
  - intros [-> H]. eauto.
  - intros (s'' & [= -> ->] & H). done.
Qed.

Lemma star_iff ok k b s :
  (∀ b1 b2 t, k b1 t = k b2 t) →
  star ok k b s = true
  ↔ ∃ mid rest,
      s = mid ++ rest ∧ Forall (λ c, ok c = true) mid ∧ k b rest = true.
Proof.
  intros Hk. revert b. induction s as [|c s IH]; intros b; simpl.
  - rewrite orb_false_r. split.
    + intros H. exists [], []. by split_and!.
    + intros (mid & rest & Hs & _ & H).
      symmetry in Hs. apply app_eq_nil in Hs as [_ ->]. done.
  - rewrite orb_true_iff, andb_true_iff, IH. split.
    + intros [H | [Hc (mid & rest & -> & Hmid & H)]].
      * exists [], (c :: s). by split_and!.
      * exists (c :: mid), rest. split_and!; [done | by constructor |].
        by rewrite (Hk b false).
    + intros (mid & rest & Hs & Hmid & H).
      destruct mid as [|c' mid]; simpl in Hs.
      * left. by rewrite Hs.
      * injection Hs as -> ->. inversion Hmid; subst. right.
        split; [done|]. exists mid, rest. split_and!; [done | done |].
        by rewrite (Hk false b).
Qed.

(** [\.md$]: the extension at the end, or before one final line feed. *)
Lemma match_here_extension b s :
  match_here
    [One (Lit 0x2E%N); One (Lit 0x6D%N); One (Lit 0x64%N); Dollar] b s = true
  ↔ ∃ tail, s = py ".md" ++ tail ∧ (tail = [] ∨ tail = [10%N]).
Proof.
  rewrite match_here_lit. split.
  - intros (s1 & -> & (s2 & -> & (s3 & -> & H)%match_here_lit)%match_here_lit).
    simpl in H. rewrite andb_true_r, orb_true_iff in H.
    rewrite !bool_decide_eq_true in H. by exists s3.
  - intros (tail & -> & Htail). eexists. split; [done|].
    apply match_here_lit. eexists. split; [done|].
    apply match_here_lit. eexists. split; [done|].
    simpl. rewrite andb_true_r, orb_true_iff, !bool_decide_eq_true. done.
Qed.

(** A name matches [FILE_NAME_PATTERN] exactly when it is the five
    letters, then any characters other than the line feed, then [.md], and
    after that nothing or one line feed. *)
Lemma file_name_pattern_matches name :
  re_match FILE_NAME_PATTERN name = true
  ↔ ∃ mid tail,
      name = book_prefix ++ mid ++ py ".md" ++ tail
      ∧ Forall (λ c, c ≠ 10%N) mid
      ∧ (tail = [] ∨ tail = [10%N]).
Proof.
  unfold re_match.
  change FILE_NAME_PATTERN with
    (Caret :: One (Lit 0x41A%N) :: One (Lit 0x43D%N) :: One (Lit 0x438%N)
       :: One (Lit 0x433%N) :: One (Lit 0x430%N) :: Star Dot
       :: [One (Lit 0x2E%N); One (Lit 0x6D%N); One (Lit 0x64%N); Dollar]).
  change (match_here (Caret :: ?r) true name)
    with (true && match_here r true name).
  rewrite andb_true_l.
  assert (Hstar : ∀ b s,
    match_here
      (Star Dot
         :: [One (Lit 0x2E%N); One (Lit 0x6D%N); One (Lit 0x64%N); Dollar])
      b s = true
    ↔ ∃ mid tail, s = mid ++ py ".md" ++ tail
        ∧ Forall (λ c, c ≠ 10%N) mid ∧ (tail = [] ∨ tail = [10%N])).
  { intros b s.
    change (match_here (Star Dot :: ?r) b s)
      with (star (atom_ok Dot) (match_here r) b s).
    rewrite star_iff.
    - split.
      + intros (mid & rest & -> & Hmid & (tail & -> &
          Htail)%match_here_extension).
        exists mid, tail. split_and!; [done | | done].
        eapply Forall_impl; [exact Hmid|]. simpl. intros c Hc ->. done.
      + intros (mid & tail & -> & Hmid & Htail).
        exists mid, (py ".md" ++ tail). split_and!; [done | |].
        * eapply Forall_impl; [exact Hmid|]. simpl. intros c Hc.
          apply negb_true_iff, N.eqb_neq. done.
        * apply match_here_extension. eauto.
    - intros b1 b2 t. apply eq_true_iff_eq.
      by rewrite !match_here_extension. }
  split.
  - intros (s1 & -> & (s2 & -> & (s3 & -> & (s4 & -> & (s5 & -> & H
      )%match_here_lit)%match_here_lit)%match_here_lit)%match_here_lit
      )%match_here_lit.
    apply Hstar in H as (mid & tail & -> & Hmid & Htail).
    by exists mid, tail.
  - intros (mid & tail & -> & Hmid & Htail).
    apply match_here_lit. eexists. split; [done|].
    apply match_here_lit. eexists. split; [done|].
    apply match_here_lit. eexists. split; [done|].
    apply match_here_lit. eexists. split; [done|].
    apply match_here_lit. eexists. split; [done|].
    apply Hstar. eauto.
Qed.

(** ** One text through the pipeline *)

Lemma last_join lines l :
  last lines = Some l → l ≠ [] → last (join lines) = last l.
Proof.
  induction lines as [|x ls IH]; [done|]. intros Hlast Hl.
  destruct ls as [|x' ls'].
  - simpl in *. by injection Hlast as ->.
  - rewrite last_cons_cons in Hlast.
    change (join (x :: x' :: ls')) with (x ++ 10%N :: join (x' :: ls')).
    rewrite last_app. specialize (IH Hlast Hl).
    destruct (join (x' :: ls')) as [|c j] eqn:Hj.
    + simpl in IH. symmetry in IH. apply last_None in IH. done.
    + rewrite last_cons_cons, IH.
      destruct (last l) eqn:E; [done | by apply last_None in E].
Qed.

Lemma last_drop {A} (l : list A) n :
  n < length l → last (drop n l) = last l.
Proof.
  intros Hn. rewrite !last_lookup, lookup_drop, length_drop.
  f_equal. lia.
Qed.

Section RunFacts.

Variable safe_load : str → heap → loaded * heap.
Variable safe_dump : value → heap → dumped.
Variable print_error : value → heap → option str.
Variable path : Type.
Variable files : Type.
Variable read_text : path → files → option str.
Variable write_text : path → str → files → files * bool.
Variable path_name : path → str.
Variable iterdir : path → files → option (list path).
Variable is_file : path → files → option bool.
Variable NOTES_DIRECTORY : path.

(** What a successful [extract_yaml_data] tells about the text. *)
Lemma extract_yaml_data_Ok content st data s e st1 :
  extract_yaml_data safe_load content st = (Ok (data, s, e), st1) →
  find_yaml_block_indices content = (Some s, Some e)
  ∧ safe_load (join (slice (s + 1) e (splitlines content))) (st_heap st)
    = (Loaded data, st_heap st1)
  ∧ st_out st1 = st_out st.
Proof.
  unfold extract_yaml_data.
  destruct (find_yaml_block_indices content) as [[s'|] [e'|]]; try done.
  destruct (safe_load _ (st_heap st)) as [[d|err] h] eqn:Hload; [|done].
  intros [= -> -> -> <-]. by rewrite Hload.
Qed.

(** With a mapping in hand the text is rebuilt and the mapping printed,
    unless [print] or [yaml.safe_dump] raises. *)
Lemma update_yaml_content_mapping content st data s e st1 :
  extract_yaml_data safe_load content st = (Ok (data, s, e), st1) →
  is_dict data (st_heap st1) = true →
  ∃ r st2,
    update_yaml_content safe_load safe_dump print_error content st = (r, st2)
    ∧ ((∃ text o,
          r = Ok (build_updated_content content s e (strip text))
          ∧ st_out st2 = st_out st ++ [Printed o])
       ∨ (∃ err v h,
            r = Raise (PrintFailed err) ∧ print_error v h = Some err
            ∧ st_out st2 = st_out st)
       ∨ (∃ err v h o,
            r = Raise (DumpFailed err) ∧ safe_dump v h = DumpError err
            ∧ st_out st2 = st_out st ++ [Printed o])).
Proof.
  intros Hext Hdict. unfold update_yaml_content. rewrite Hext, Hdict. simpl.
  apply extract_yaml_data_Ok in Hext as (_ & _ & Hout).
  destruct data as [| | | | |l]; try done. simpl in Hdict.
  unfold update_yaml_field.
  destruct (st_heap st1 !! l) as [[entries|]|]; try done. simpl.
  destruct (print_error _ _) as [err|] eqn:Hprint.
  - eexists _, _. split; [done|]. right. left.
    eexists _, _, _. by split_and!.
  - simpl. destruct (safe_dump _ _) as [text|err] eqn:Hdump.
    + eexists _, _. split; [done|]. left.
      eexists _, _. split; [done|]. simpl. by rewrite Hout.
    + eexists _, _. split; [done|]. right. right.
      eexists _, _, _, _. split_and!; [done | done |]. simpl. by rewrite Hout.
Qed.

(** X6. When the YAML library rejects the inner text of the block, the
    error is logged once, [update_yaml_content] returns the text as it is
    and [process_file] leaves the files as they are. *)
Theorem parse_error_no_change content st start_index end_index e h :
  find_yaml_block_indices content = (Some start_index, Some end_index) →
  safe_load
    (join (slice (start_index + 1) end_index (splitlines content)))
    (st_heap st) = (LoadError e, h) →
  update_yaml_content safe_load safe_dump print_error content st
  = (Ok content, State h (st_out st ++ [LogError (MsgParseError e)]))
  ∧ ∀ file_path fs,
      read_text file_path fs = Some content →
      process_file safe_load safe_dump print_error path files read_text
          write_text
        file_path fs st
      = (Ok tt, fs, State h (st_out st ++ [LogError (MsgParseError e)])).
Proof.
  intros Hfind Hload.
  assert (Hupd : update_yaml_content safe_load safe_dump print_error content st
    = (Ok content, State h (st_out st ++ [LogError (MsgParseError e)]))).
  { unfold update_yaml_content, extract_yaml_data.
    by rewrite Hfind, Hload. }
  split; [done|]. intros file_path fs Hread.
  by apply (process_file_unchanged _ _ _ _ _ _ _ _ _ content).
Qed.

(** X7. A call of [update_yaml_content] that returns has made exactly one
    output call: the [print] of the mapping when the text is rebuilt, one
    [logging.error] when the text is returned as it is. The only exceptions
    that leave it are those of [print], with nothing put out, and of
    [yaml.safe_dump], with the mapping printed and nothing logged. *)
Theorem update_yaml_content_one_event content st :
  ∃ r st',
    update_yaml_content safe_load safe_dump print_error content st = (r, st')
    ∧ match r with
      | Ok text =>
          ∃ ev,
            st_out st' = st_out st ++ [ev]
            ∧ match ev with
              | Printed _ =>
                  ∃ s e updated_yaml,
                    find_yaml_block_indices content = (Some s, Some e)
                    ∧ text = build_updated_content content s e updated_yaml
              | LogError _ => text = content
              | LogInfo _ => False
              end
      | Raise (PrintFailed err) =>
          (∃ v h, print_error v h = Some err) ∧ st_out st' = st_out st
      | Raise (DumpFailed err) =>
          (∃ v h, safe_dump v h = DumpError err)
          ∧ ∃ o, st_out st' = st_out st ++ [Printed o]
      | Raise _ => False
      end.
Proof.
  destruct (extract_yaml_data safe_load content st)
    as [[[[data s] e]|err] st1] eqn:Hext.
  - destruct (is_dict data (st_heap st1)) eqn:Hdict.
    + destruct (update_yaml_content_mapping _ _ _ _ _ _ Hext Hdict)
        as (r & st2 & Hupd & Hr).
      apply extract_yaml_data_Ok in Hext as (Hfind & _).
      exists r, st2. split; [done|].
      destruct Hr as [(text & o & -> & Hout)
                     | [(err & v & h & -> & Hp & Hout)
                       | (err & v & h & o & -> & Hd & Hout)]].
      * exists (Printed o). split; [done|]. eauto.
      * eauto.
      * eauto.
    + unfold update_yaml_content. rewrite Hext, Hdict. simpl.
      apply extract_yaml_data_Ok in Hext as (_ & _ & Hout).
      eexists _, _. split; [done|]. eexists.
      split; [simpl; by rewrite Hout | done].
  - unfold update_yaml_content. rewrite Hext.
    unfold extract_yaml_data in Hext.
    destruct (find_yaml_block_indices content) as [[s|] [e|]];
      try (injection Hext as <- <-;
           eexists _, _; split; [done|]; eexists; split; done).
    destruct (safe_load _ (st_heap st)) as [[d|msg] h]; [done|].
    injection Hext as <- <-.
    eexists _, _. split; [done|]. eexists. split; done.
Qed.

(** X8. When the block is rewritten and the text does not end in a blank
    line, the text returned does not end in a line terminator; a text that
    does end in one therefore comes back changed. *)
Theorem final_terminator_removed content st data s e st1 text :
  extract_yaml_data safe_load content st = (Ok (data, s, e), st1) →
  is_dict data (st_heap st1) = true →
  no_trailing_blank_line content →
  (update_yaml_content safe_load safe_dump print_error content st).1 = Ok text →
  (∀ c, last text = Some c → is_linebreak c = false)
  ∧ (∀ c, last content = Some c → is_linebreak c = true → text ≠ content).
Proof.
  intros Hext Hdict Htrail Htext.
  destruct (update_yaml_content_mapping _ _ _ _ _ _ Hext Hdict)
    as (r & st2 & Hupd & Hr).
  rewrite Hupd in Htext. simpl in Htext. subst r.
  destruct Hr as [(dump & o & [= ->] & _)
                 | [(? & ? & ? & ? & _) | (? & ? & ? & ? & ? & _)]];
    [|done|done].
  apply extract_yaml_data_Ok in Hext as (Hfind & _).
  destruct (find_bounds _ _ _ Hfind) as [_ Hlen].
  assert (Hend : ∀ c,
    last (build_updated_content content s e (strip dump)) = Some c →
    is_linebreak c = false).
  { intros c. unfold build_updated_content.
    set (new := new_content_lines content s e _).
    assert (Hnew : ∃ l, last new = Some l ∧ l ≠ [] ∧ plain l).
    { unfold new. rewrite last_new_content_lines.
      destruct (drop (e + 1) (splitlines content)) as [|x post] eqn:Hpost.
      - exists delimiter. split_and!; [done | done | apply plain_delimiter].
      - rewrite last_cons_cons, <- Hpost.
        assert (e + 1 < length (splitlines content)).
        { apply (f_equal length) in Hpost. rewrite length_drop in Hpost.
          simpl in Hpost. lia. }
        rewrite last_drop by done.
        destruct (last (splitlines content)) as [l|] eqn:Hl;
          [|apply last_None in Hl;
            apply (f_equal length) in Hl; simpl in Hl; lia].
        exists l. split_and!; [done | |].
        + intros ->. by apply Htrail.
        + pose proof (splitlines_plain content) as Hplain.
          apply last_Some in Hl as [l' Hl]. rewrite Hl in Hplain.
          apply Forall_app in Hplain as [_ Hplain].
          by apply Forall_cons in Hplain as [? _]. }
    destruct Hnew as (l & Hlast & Hne & Hplain).
    rewrite (last_join _ _ Hlast Hne). intros Hc.
    apply last_Some in Hc as [l' ->].
    apply Forall_app in Hplain as [_ Hplain].
    by apply Forall_cons in Hplain as [? _]. }
  split; [done|].
  intros c Hc Hbreak Heq. rewrite Heq in Hend.
  specialize (Hend _ Hc). congruence.
Qed.

(** ** One file *)

(** Whatever happens, the files are what they were or what one
    [write_text] made of them. *)
Lemma process_file_frame file_path fs st :
  ∃ r fs' st',
    process_file safe_load safe_dump print_error path files read_text
      write_text file_path fs st = (r, fs', st')
    ∧ (fs' = fs ∨ ∃ text, fs' = (write_text file_path text fs).1).
Proof.
  unfold process_file.
  destruct (read_text file_path fs) as [content|];
    [|eexists _, _, _; split; [done | by left]].
  destruct (update_yaml_content safe_load safe_dump print_error content st)
    as [[text|e] st1]; [|eexists _, _, _; split; [done | by left]].
  case_bool_decide; [|eexists _, _, _; split; [done | by left]].
  destruct (write_text file_path text fs) as [fs' []] eqn:Hw;
    eexists _, _, _; (split; [done|]); right; exists text; by rewrite Hw.
Qed.

(** X9. [process_file] raises only when [update_yaml_content] does, and
    then writes nothing. A file that cannot be read is logged and nothing
    else happens; otherwise the files change by at most one [write_text],
    of the text [update_yaml_content] returned, and only when that text
    differs from the one read; a failed write is logged and returns too. *)
Theorem process_file_outcome file_path fs st :
  ∃ r fs' st',
    process_file safe_load safe_dump print_error path files read_text
      write_text file_path fs st = (r, fs', st')
    ∧ match read_text file_path fs with
      | None =>
          r = Ok tt ∧ fs' = fs ∧ st' = emit (LogError MsgReadError) st
      | Some content =>
          ∃ updated st1,
            update_yaml_content safe_load safe_dump print_error content st
            = (updated, st1)
            ∧ match updated with
              | Raise e => r = Raise e ∧ fs' = fs ∧ st' = st1
              | Ok text =>
                  r = Ok tt
                  ∧ st_heap st' = st_heap st1
                  ∧ if bool_decide (text = content)
                    then fs' = fs ∧ st' = st1
                    else fs' = (write_text file_path text fs).1
                         ∧ ∃ m, st_out st' = st_out st1 ++ [m]
              end
      end.
Proof.
  unfold process_file.
  destruct (read_text file_path fs) as [content|];
    [|by eexists _, _, _].
  destruct (update_yaml_content safe_load safe_dump print_error content st)
    as [[text|e] st1].
  2: { eexists _, _, _. split; [done|]. by exists (Raise e), st1. }
  destruct (decide (text = content)) as [->|Hne].
  - rewrite bool_decide_eq_false_2 by (by intros []).
    eexists _, _, _. split; [done|]. exists (Ok content), st1.
    split; [done|]. by rewrite bool_decide_eq_true_2.
  - rewrite bool_decide_eq_true_2 by done.
    destruct (write_text file_path text fs) as [fs' []] eqn:Hw;
      eexists _, _, _; (split; [done|]); exists (Ok text), st1;
      (split; [done|]);
      rewrite bool_decide_eq_false_2 by done; rewrite Hw; simpl; eauto.
Qed.

(** A stable run returns. *)
Lemma stable_on_returns content st h' :
  stable_on safe_load safe_dump print_error content (st_heap st) h' →
  ∃ text st1,
    update_yaml_content safe_load safe_dump print_error content st
    = (Ok text, st1).
Proof.
  intros Hstable.
  pose proof (update_yaml_content_text safe_load safe_dump print_error
                content st) as Htext.
  unfold stable_on in Hstable.
  destruct (update_yaml_content safe_load safe_dump print_error content st)
    as [[text|e] st1]; [by eauto|].
  simpl in Htext.
  destruct (find_yaml_block_indices content) as [[s|] [e'|]]; try done.
  simpl in *. by destruct (block_lines _ _ _ _ (st_heap st)).
Qed.

(** X10. A second run on the same file writes nothing, when the second run
    of the transformation repeats the first ([stable_on]) and the file reads
    back as the text that was written to it. *)
Theorem process_file_second_run file_path fs st content :
  read_text file_path fs = Some content →
  stable_on safe_load safe_dump print_error content (st_heap st)
    (st_heap
       (update_yaml_content safe_load safe_dump print_error content st).2) →
  (∀ text,
     (update_yaml_content safe_load safe_dump print_error content st).1
     = Ok text →
     text ≠ content →
     read_text file_path (write_text file_path text fs).1 = Some text) →
  ∃ fs1 st1 st2,
    process_file safe_load safe_dump print_error path files read_text
      write_text file_path fs st = (Ok tt, fs1, st1)
    ∧ process_file safe_load safe_dump print_error path files read_text
        write_text file_path fs1 st1 = (Ok tt, fs1, st2).
Proof.
  intros Hread Hstable Hback.
  destruct (stable_on_returns _ _ _ Hstable) as (text & stu & Hupd).
  rewrite Hupd in Hstable, Hback. simpl in Hstable, Hback.
  assert (Hagain : ∀ st', st_heap st' = st_heap stu →
    ∃ st2, update_yaml_content safe_load safe_dump print_error text st'
           = (Ok text, st2)).
  { intros st' Hheap.
    pose proof (update_yaml_content_rerun safe_load safe_dump print_error
                  content st st' text) as H.
    rewrite Hupd, Hheap in H. specialize (H eq_refl Hstable).
    destruct (update_yaml_content safe_load safe_dump print_error text st')
      as [r st2]. simpl in H. subst r. eauto. }
  unfold process_file at 1. rewrite Hread, Hupd.
  destruct (decide (text = content)) as [->|Hne].
  - rewrite bool_decide_eq_false_2 by (by intros []).
    destruct (Hagain stu eq_refl) as [st2 H2].
    eexists _, _, st2. split; [done|].
    by apply (process_file_unchanged _ _ _ _ _ _ _ _ _ content).
  - rewrite bool_decide_eq_true_2 by done.
    specialize (Hback text eq_refl Hne).
    destruct (write_text file_path text fs) as [fs1 ok]. simpl in Hback.
    destruct ok.
    + destruct (Hagain (emit (LogInfo MsgUpdated) stu) eq_refl) as [st2 H2].
      eexists _, _, st2. split; [done|].
      by apply (process_file_unchanged _ _ _ _ _ _ _ _ _ text).
    + destruct (Hagain (emit (LogError MsgWriteError) stu) eq_refl)
        as [st2 H2].
      eexists _, _, st2. split; [done|].
      by apply (process_file_unchanged _ _ _ _ _ _ _ _ _ text).
Qed.

(** ** The run *)

(** The comprehension ends in an exception exactly when [is_file] raises on
    an entry; otherwise it keeps, in order, the regular files whose name
    matches. *)
Lemma select_files_spec entries fs :
  match select_files path files path_name is_file entries fs with
  | None => ∃ p, p ∈ entries ∧ is_file p fs = None
  | Some file_paths =>
      (∀ p, p ∈ entries → is_file p fs ≠ None)
      ∧ file_paths `sublist_of` entries
      ∧ ∀ p, p ∈ file_paths
             ↔ p ∈ entries ∧ is_file p fs = Some true
               ∧ re_match FILE_NAME_PATTERN (path_name p) = true
  end.
Proof.
  induction entries as [|q rest IH]; simpl.
  - split_and!; [by intros p ?%not_elem_of_nil | done |].
    intros p. split; [by intros ?%not_elem_of_nil|].
    by intros [?%not_elem_of_nil _].
  - destruct (is_file q fs) as [regular|] eqn:Hq.
    2: { exists q. split; [apply list_elem_of_here | done]. }
    destruct (select_files _ _ _ _ rest fs) as [selected|].
    2: { destruct IH as (p & Hp & Hnone). exists p.
         split; [by apply list_elem_of_further | done]. }
    destruct IH as (Hall & Hsub & Hiff).
    assert (Hall' : ∀ p, p ∈ q :: rest → is_file p fs ≠ None).
    { intros p [->|Hp]%elem_of_cons; [congruence | by apply Hall]. }
    destruct (regular && re_match FILE_NAME_PATTERN (path_name q)) eqn:Hkeep.
    + apply andb_true_iff in Hkeep as [-> Hname].
      split_and!; [done | by constructor |].
      intros p. rewrite !elem_of_cons, Hiff. split.
      * intros [->|(Hp & Hf & Hn)]; [by split_and!; [left | |]|].
        split_and!; [by right | done | done].
      * intros ([->|Hp] & Hf & Hn); [by left | right; by split_and!].
    + split_and!; [done | by constructor |].
      intros p. rewrite elem_of_cons, Hiff. split.
      * intros (Hp & Hf & Hn). split_and!; [by right | done | done].
      * intros ([->|Hp] & Hf & Hn); [|by split_and!].
        rewrite Hq in Hf. injection Hf as ->. simpl in Hkeep. congruence.
Qed.

(** X11. [list_note_files] raises exactly when the listing of the directory
    raises or [is_file] raises on one of the entries; otherwise it returns,
    in the order of the listing, exactly the entries that are regular files
    and whose name is the five letters, any characters but the line feed,
    [.md], and at most one final line feed. *)
Theorem list_note_files_selects directory fs :
  match iterdir directory fs with
  | None =>
      list_note_files path files path_name iterdir is_file directory fs
      = None
  | Some entries =>
      match
        list_note_files path files path_name iterdir is_file directory fs
      with
      | None => ∃ p, p ∈ entries ∧ is_file p fs = None
      | Some file_paths =>
          (∀ p, p ∈ entries → is_file p fs ≠ None)
          ∧ file_paths `sublist_of` entries
          ∧ ∀ p,
              p ∈ file_paths
              ↔ p ∈ entries ∧ is_file p fs = Some true
                ∧ ∃ mid tail,
                    path_name p = book_prefix ++ mid ++ py ".md" ++ tail
                    ∧ Forall (λ c, c ≠ 10%N) mid
                    ∧ (tail = [] ∨ tail = [10%N])
      end
  end.
Proof.
  unfold list_note_files.
  destruct (iterdir directory fs) as [entries|]; [|done].
  pose proof (select_files_spec entries fs) as H.
  destruct (select_files _ _ _ _ entries fs) as [file_paths|]; [|done].
  destruct H as (Hall & Hsub & Hiff). split_and!; [done | done |].
  intros p. by rewrite Hiff, file_name_pattern_matches.
Qed.

Lemma list_note_files_match directory fs file_paths p :
  list_note_files path files path_name iterdir is_file directory fs
  = Some file_paths →
  p ∈ file_paths → re_match FILE_NAME_PATTERN (path_name p) = true.
Proof.
  unfold list_note_files.
  destruct (iterdir directory fs) as [entries|]; [|done].
  intros Hsel Hp. pose proof (select_files_spec entries fs) as H.
  rewrite Hsel in H. destruct H as (_ & _ & Hiff).
  by apply Hiff in Hp as (_ & _ & ?).
Qed.

Lemma update_yaml_content_raise content st e st1 :
  update_yaml_content safe_load safe_dump print_error content st
  = (Raise e, st1) →
  from_print_or_dump safe_dump print_error e.
Proof.
  intros Hupd.
  destruct (extract_yaml_data safe_load content st)
    as [[[[data s] e']|err] st0] eqn:Hext.
  - destruct (is_dict data (st_heap st0)) eqn:Hdict.
    + destruct (update_yaml_content_mapping _ _ _ _ _ _ Hext Hdict)
        as (r & st2 & Hupd' & Hr).
      rewrite Hupd in Hupd'. injection Hupd' as <- <-.
      destruct Hr as [(? & ? & ? & _)
                     | [(err & v & h & [= ->] & Hp & _)
                       | (err & v & h & o & [= ->] & Hd & _)]];
        [done | |]; simpl; eauto.
    + unfold update_yaml_content in Hupd. by rewrite Hext, Hdict in Hupd.
  - unfold update_yaml_content in Hupd. rewrite Hext in Hupd.
    by destruct err.
Qed.

Lemma process_file_raise file_path fs st e fs1 st1 :
  process_file safe_load safe_dump print_error path files read_text
    write_text file_path fs st = (Raise e, fs1, st1) →
  from_print_or_dump safe_dump print_error e.
Proof.
  unfold process_file.
  destruct (read_text file_path fs) as [content|]; [|done].
  destruct (update_yaml_content safe_load safe_dump print_error content st)
    as [[text|e'] st2] eqn:Hupd.
  - case_bool_decide; [|done].
    by destruct (write_text file_path text fs) as [fs' []].
  - intros [= -> _ _]. by eapply update_yaml_content_raise.
Qed.

Lemma process_files_raise file_paths fs st e fs1 st1 :
  process_files safe_load safe_dump print_error path files read_text
    write_text file_paths fs st = (Raise e, fs1, st1) →
  from_print_or_dump safe_dump print_error e.
Proof.
  revert fs st. induction file_paths as [|p rest IH]; intros fs st; simpl;
    [done|].
  destruct (process_file _ _ _ _ _ _ _ p fs st) as [[[[]|e'] fs2] st2] eqn:Hp.
  - apply IH.
  - intros [= -> _ _]. by eapply process_file_raise.
Qed.

(** X12. A run ends in an exception only when the listing raises
    ([iterdir] or [is_file]), and then nothing has been touched, or when
    [print] or [yaml.safe_dump] raises on a mapping; no unreadable,
    unparsable, non-mapping or unwritable file stops it. *)
Theorem main_outcome fs st :
  match
    list_note_files path files path_name iterdir is_file NOTES_DIRECTORY fs
  with
  | None =>
      main safe_load safe_dump print_error path files read_text write_text
        path_name iterdir is_file NOTES_DIRECTORY fs st
      = (RunListingFailed, fs, st)
  | Some _ =>
      ∃ outcome fs' st',
        main safe_load safe_dump print_error path files read_text
          write_text path_name iterdir is_file NOTES_DIRECTORY fs st
        = (outcome, fs', st')
        ∧ match outcome with
          | RunDone => True
          | RunRaised (PrintFailed err) => ∃ v h, print_error v h = Some err
          | RunRaised (DumpFailed err) =>
              ∃ v h, safe_dump v h = DumpError err
          | _ => False
          end
  end.
Proof.
  unfold main.
  destruct (list_note_files _ _ _ _ _ NOTES_DIRECTORY fs)
    as [file_paths|]; [|done].
  destruct (process_files _ _ _ _ _ _ _ file_paths fs st)
    as [[[[]|e] fs1] st1] eqn:Hrun.
  - by eexists _, _, _.
  - apply process_files_raise in Hrun.
    eexists _, _, _. split; [done|]. by destruct e.
Qed.

Lemma process_files_frame file_paths fs st q :
  (∀ p text fs0,
     p ≠ q → read_text q (write_text p text fs0).1 = read_text q fs0) →
  q ∉ file_paths →
  read_text q
    (process_files safe_load safe_dump print_error path files read_text
       write_text file_paths fs st).1.2
  = read_text q fs.
Proof.
  intros Hframe. revert fs st.
  induction file_paths as [|p rest IH]; intros fs st Hq; simpl; [done|].
  apply not_elem_of_cons in Hq as [Hne Hq].
  destruct (process_file_frame p fs st) as (r & fs1 & st1 & -> & Hfs).
  assert (Hone : read_text q fs1 = read_text q fs).
  { destruct Hfs as [-> | [text ->]]; [done | by apply Hframe]. }
  destruct r as [[]|e]; [|done]. by rewrite IH.
Qed.

(** X13. A file whose name does not match the pattern reads after the run
    as it did before, provided that writing one path leaves the text read
    at any other path alone. *)
Theorem main_spares_other_names fs st q :
  (∀ p text fs0,
     p ≠ q → read_text q (write_text p text fs0).1 = read_text q fs0) →
  re_match FILE_NAME_PATTERN (path_name q) = false →
  read_text q
    (main safe_load safe_dump print_error path files read_text write_text
       path_name iterdir is_file NOTES_DIRECTORY fs st).1.2
  = read_text q fs.
Proof.
  intros Hframe Hname. unfold main.
  destruct (list_note_files _ _ _ _ _ NOTES_DIRECTORY fs)
    as [file_paths|] eqn:Hlist; [|done].
  assert (Hq : q ∉ file_paths).
  { intros Hin. apply (list_note_files_match _ _ _ _ Hlist) in Hin.
    congruence. }
  pose proof (process_files_frame file_paths fs st q Hframe Hq) as H.
  destruct (process_files _ _ _ _ _ _ _ file_paths fs st)
    as [[[[]|e] fs1] st1]; done.
Qed.

Lemma update_yaml_content_no_block content st :
  delimiter_count content ≤ 1 →
  update_yaml_content safe_load safe_dump print_error content st
  = (Ok content, emit (LogError MsgBlockNotFound) st).
Proof.
  intros Hcount. pose proof (find_delimiter_count content) as H.
  unfold update_yaml_content, extract_yaml_data.
  destruct (find_yaml_block_indices content) as [[s|] [e|]];
    try done; lia.
Qed.

Lemma process_files_no_block file_paths fs st :
  (∀ p content,
     p ∈ file_paths → read_text p fs = Some content →
     delimiter_count content ≤ 1) →
  (process_files safe_load safe_dump print_error path files read_text
     write_text file_paths fs st).1
  = (Ok tt, fs).
Proof.
  revert st. induction file_paths as [|p rest IH]; intros st Hall; [done|].
  simpl.
  assert (∃ st1, process_file safe_load safe_dump print_error path files
                   read_text write_text p fs st = (Ok tt, fs, st1))
    as [st1 ->].
  { unfold process_file.
    destruct (read_text p fs) as [content|] eqn:Hread; [|by eauto].
    rewrite update_yaml_content_no_block
      by (eapply Hall; [apply list_elem_of_here | done]).
    rewrite bool_decide_eq_false_2 by (by intros []). eauto. }
  apply IH. intros p' content Hin. apply Hall. by apply list_elem_of_further.
Qed.

(** X14. When no text whose file name matches the pattern has two
    delimiter lines, the run writes no file: the files are afterwards what
    they were before. *)
Theorem main_without_blocks fs st :
  (∀ p content,
     re_match FILE_NAME_PATTERN (path_name p) = true →
     read_text p fs = Some content → delimiter_count content ≤ 1) →
  (main safe_load safe_dump print_error path files read_text write_text
     path_name iterdir is_file NOTES_DIRECTORY fs st).1.2
  = fs.
Proof.
  intros Hall. unfold main.
  destruct (list_note_files _ _ _ _ _ NOTES_DIRECTORY fs)
    as [file_paths|] eqn:Hlist; [|done].
  pose proof (process_files_no_block file_paths fs st) as H.
  destruct (process_files _ _ _ _ _ _ _ file_paths fs st) as [[r fs1] st1].
  simpl in H.
  assert (Hfs : (r, fs1) = (Ok tt, fs)).
  { apply H. intros p content Hin. apply Hall.
    by apply (list_note_files_match _ _ _ _ Hlist). }
  injection Hfs as -> ->. done.
Qed.

End RunFacts.

(** ** The further properties on the sample texts *)

Lemma parse_error_no_change_witness :
  let content := py "---\nk: [\n---\n" in
  let st1 := State [] [LogError (MsgParseError (py "not in the table"))] in
  update_yaml_content Sample.safe_load Sample.safe_dump Sample.print_error
      content Sample.st0
  = (Ok content, st1)
  ∧ ∀ file_path fs,
      Sample.read_text file_path fs = Some content →
      process_file Sample.safe_load Sample.safe_dump Sample.print_error nat
          (list str)
        Sample.read_text Sample.write_text file_path fs Sample.st0
      = (Ok tt, fs, st1).
Proof.
  apply (parse_error_no_change Sample.safe_load Sample.safe_dump
      Sample.print_error
           nat (list str) Sample.read_text Sample.write_text
           (py "---\nk: [\n---\n") Sample.st0 0 2);
    reflexivity.
Defined.

Lemma final_terminator_removed_witness :
  let content := py "A\n---\nk: 1\n---\nB\n" in
  let text := py "A\n---\nk: 1\n---\nB" in
  (∀ c, last text = Some c → is_linebreak c = false)
  ∧ (∀ c, last content = Some c → is_linebreak c = true → text ≠ content).
Proof.
  apply (final_terminator_removed Sample.safe_load Sample.safe_dump
      Sample.print_error
           (py "A\n---\nk: 1\n---\nB\n") Sample.st0 (VRef 0) 1 3
           (State [Sample.mapping_k1] [])).
  - reflexivity.
  - reflexivity.
  - vm_compute. discriminate.
  - reflexivity.
Defined.

Lemma process_file_second_run_witness :
  ∃ fs1 st1 st2,
    process_file Sample.safe_load Sample.safe_dump Sample.print_error nat (list
        str)
      Sample.read_text Sample.write_text 0 Sample.notes Sample.st0
    = (Ok tt, fs1, st1)
    ∧ process_file Sample.safe_load Sample.safe_dump Sample.print_error nat
        (list str)
        Sample.read_text Sample.write_text 0 fs1 st1
      = (Ok tt, fs1, st2).
Proof.
  apply (process_file_second_run Sample.safe_load Sample.safe_dump
      Sample.print_error
           nat (list str) Sample.read_text Sample.write_text
           0 Sample.notes Sample.st0 (py "A\n---\nk: 1\n---\nB\n")).
  - reflexivity.
  - vm_compute. split_and!; [repeat constructor | reflexivity | discriminate].
  - intros text _ _. reflexivity.
Defined.

Lemma main_spares_other_names_witness :
  Sample.read_text 2
    (main Sample.safe_load Sample.safe_dump Sample.print_error nat (list str)
       Sample.read_text Sample.write_text Sample.path_name Sample.iterdir
       Sample.is_file 0 Sample.notes Sample.st0).1.2
  = Sample.read_text 2 Sample.notes.
Proof.
  apply (main_spares_other_names Sample.safe_load Sample.safe_dump
      Sample.print_error
           nat (list str) Sample.read_text Sample.write_text
           Sample.path_name Sample.iterdir Sample.is_file 0
           Sample.notes Sample.st0 2).
  - intros p text fs0 Hne. simpl. by apply list_lookup_insert_ne.
  - reflexivity.
Defined.

Lemma main_without_blocks_witness :
  let fs := [py "k: 1\n"; py "---\nk: 1\n"; py "---\nk: 1\n---\n"] in
  (main Sample.safe_load Sample.safe_dump Sample.print_error nat (list str)
     Sample.read_text Sample.write_text Sample.path_name Sample.iterdir
     Sample.is_file 0 fs Sample.st0).1.2
  = fs.
Proof.
  apply (main_without_blocks Sample.safe_load Sample.safe_dump
      Sample.print_error
           nat (list str) Sample.read_text Sample.write_text
           Sample.path_name Sample.iterdir Sample.is_file 0
           [py "k: 1\n"; py "---\nk: 1\n"; py "---\nk: 1\n---\n"]
           Sample.st0).
  intros [|[|[|[|p]]]] content Hname Hread;
    try discriminate Hname; try discriminate Hread;
    injection Hread as <-; vm_compute; lia.
Defined.

Lemma update_yaml_content_drift_witness :
  ∃ text',
    (update_yaml_content Sample.safe_load Sample.safe_dump Sample.print_error
       (py "---\nk: 1\n---\n") (State [Sample.mapping_k1] [])).1 = Ok text'
    ∧ py "---\nk: 1\n---\n" = text' ++ [10%N].
Proof.
  apply (update_yaml_content_drift Sample.safe_load Sample.safe_dump
      Sample.print_error
           (py "---\nk: 1\n---\n\n") Sample.st0
           (State [Sample.mapping_k1] []) (py "---\nk: 1\n---\n") 0 2
           [py "k: 1"]).
  - reflexivity.
  - reflexivity.
  - repeat constructor.
  - reflexivity.
  - reflexivity.
  - reflexivity.
Defined.

(** ** The lines of the block *)


